(** * weewx image generator: plot-data preparation

    A shallow embedding of [bin/weewx/imagegenerator.py]: the skip decision
    [skipThisPlot], the point synthesiser [generatePoints] and the body of
    [ImageGenerator.genImages], followed by the properties of the
    specification that concern them.

    Conventions of the embedding.
    - Timestamps and intervals are integers ([Z]); samples of value vectors
      are rationals ([Q]), so that [x - aggregate_interval / 2.0] is exact.
    - A configuration section whose leaves have been accumulated is a finite
      map from option names to strings ([gmap string string]).
    - A Python computation that may raise returns a [result]; the body of
      [genImages] runs in a small monad that threads the locals surviving
      from one loop iteration to the next and collects the syslog output.
    - Everything the module imports (units, plotting, configuration
      helpers, the archive, the file system, the clock) is gathered in the
      record [Collaborators].
    - A value tuple is the sequence of its three components, as the code
      indexes it; [len] of it is 3 whatever the number of samples. *)

From Stdlib Require Import ZArith QArith List String Ascii Lia DecimalString.
From stdpp Require Import base option gmap strings.

Import ListNotations.
Local Open Scope string_scope.
Local Open Scope Z_scope.

(** ** Outcomes and log *)

Inductive exn : Type :=
| KeyError (key : string)
| ValueError
| ZeroDivisionError
| AssertionError
| UnboundLocalError (var : string)
| IOError
| ForeignError (origin : string).

Inductive result (A : Type) : Type :=
| Ok (a : A)
| Raise (e : exn).
Arguments Ok {A} a.
Arguments Raise {A} e.

Inductive level : Type := LOG_CRIT | LOG_ERR | LOG_INFO | LOG_DEBUG.

(** One constructor per [syslog.syslog] call of the module; the arguments
    are values substituted in its format string (the text of a caught
    exception, the report name and the elapsed time are left out). *)
Inductive message : Type :=
| SkipFresh (img_file : string) (last_mod age stale : Z)
| AggregateIntervalRequired (aggregate_type : string)
| LineTypeSkipped (var_type : string)
| NoFunctionType
| NoFunctionDefinition
| GapFractionIgnored (gap_fraction : Q)
| UnableToSave (img_file : string)
| Generated (ngen : nat)
| EvalFailed (func_def : string).

Definition log_entry : Type := level * message.

(** ** Value tuples *)

Record ValueTuple : Type := mkValueTuple {
  value : list Q;
  unit_type : option string;
  group : option string
}.

(** [len] of a value tuple. The code treats a value tuple as the sequence
    of its three components: it reads them as [start_vec_t[0]],
    [start_vec_t[1]] and [start_vec_t[2]] (lines 193-196) and builds one
    from three arguments. Its length is the number of components, not the
    number of samples in the first of them. *)
Definition len_vt (v : ValueTuple) : nat := 3.

(** ** String helpers of the Python runtime *)

Definition lower_ascii (c : ascii) : ascii :=
  let n := nat_of_ascii c in
  if (Nat.leb 65 n && Nat.leb n 90)%bool then ascii_of_nat (n + 32) else c.

Fixpoint lower (s : string) : string :=
  match s with
  | EmptyString => EmptyString
  | String c s' => String (lower_ascii c) (lower s')
  end.

(** ['%d' % x] *)
Definition format_d (x : Z) : string := NilZero.string_of_int (Z.to_int x).

(** [s.replace('x', r)] *)
Fixpoint replace_x (s r : string) : string :=
  match s with
  | EmptyString => EmptyString
  | String c s' =>
      if Ascii.eqb c "x" then r ++ replace_x s' r else String c (replace_x s' r)
  end.

Definition is_space (c : ascii) : bool :=
  let n := nat_of_ascii c in
  (Nat.eqb n 32 || (Nat.leb 9 n && Nat.leb n 13))%bool.

Fixpoint lstrip (s : string) : string :=
  match s with
  | String c s' => if is_space c then lstrip s' else s
  | EmptyString => EmptyString
  end.

Fixpoint rstrip (s : string) : string :=
  match s with
  | EmptyString => EmptyString
  | String c s' =>
      match rstrip s' with
      | EmptyString => if is_space c then EmptyString else String c EmptyString
      | r => String c r
      end
  end.

(** [s.strip()] *)
Definition strip (s : string) : string := rstrip (lstrip s).

(** [range(lo, hi, step)] of Python 2: a list, and [ValueError] for a zero
    step. *)
Definition range_length (lo hi step : Z) : nat :=
  if 0 <? step then Z.to_nat ((hi - lo + step - 1) / step)
  else Z.to_nat ((lo - hi - step - 1) / (- step)).

Definition range_list (lo hi step : Z) : list Z :=
  List.map (fun k => lo + Z.of_nat k * step) (seq 0 (range_length lo hi step)).

Definition py_range (lo hi step : Z) : result (list Z) :=
  if step =? 0 then Raise ValueError else Ok (range_list lo hi step).

(** Comparison of rationals as a boolean, for [a < b]. *)
Definition Qltb (a b : Q) : bool := negb (Qle_bool b a).

(** ** The plot under construction

    [PlotLine] keeps the arguments of [weeplot.genplot.PlotLine] that
    [genImages] computes itself; the remaining keyword arguments, all read
    from the options by imported helpers, are carried as one [style]. *)

Record PlotLine (style : Type) : Type := mkPlotLine {
  x : list Q;
  y : list Q;
  label : string;
  color : option Z;
  fill_color : option Z;
  width : option Z;
  plot_type : string;
  bar_width : option (list Q);
  vector_rotate : option Q;
  gap_fraction : option Q;
  settings : style
}.
Arguments mkPlotLine {style}.
Arguments x {style}.
Arguments y {style}.
Arguments label {style}.
Arguments color {style}.
Arguments fill_color {style}.
Arguments width {style}.
Arguments plot_type {style}.
Arguments bar_width {style}.
Arguments vector_rotate {style}.
Arguments gap_fraction {style}.
Arguments settings {style}.

(** A [weeplot.genplot.TimePlot]: the options it was constructed from and
    what [setXScaling], the setters of lines 123-136, [setUnitLabel] and
    [addLine] have stored so far. *)
Record TimePlot (deco style : Type) : Type := mkTimePlot {
  config : gmap string string;
  x_scaling : Z * Z * Z;
  decor : deco;
  unit_label : option string;
  line_list : list (PlotLine style)
}.
Arguments mkTimePlot {deco style}.
Arguments config {deco style}.
Arguments x_scaling {deco style}.
Arguments decor {deco style}.
Arguments unit_label {deco style}.
Arguments line_list {deco style}.

(** ** The configuration tree

    [self.image_dict] as the loops of [genImages] walk it: time spans, the
    plots of each, the lines of each plot, every section with the options
    that [accumulateLeaves] gathers for it. *)

Record LineSection : Type := mkLineSection {
  line_name : string;
  line_options : gmap string string
}.

Record PlotSection : Type := mkPlotSection {
  plotname : string;
  plot_options : gmap string string;
  line_sections : list LineSection
}.

(** ** The lists of [generatePoints]

    The three lists its loop appends to. They are locals of the frame in
    which [eval] runs, so the expression evaluated can read and change
    them. *)
Record point_vecs : Type := mkVecs {
  start_vec : list Q;
  stop_vec : list Q;
  data_vec : list Q
}.

(** ** Collaborators *)

Record Collaborators : Type := {
  (** [weewx.debug] *)
  debug : bool;
  (** the file system: [os.path.exists] holds where a modification time is
      recorded, which [os.stat(..).st_mtime] and [os.path.getmtime] read *)
  st_mtime : string -> option Z;
  (** lines 383-384: [datetime.datetime.fromtimestamp(time_ts)], which
      raises for a timestamp outside the calendar, and then [tdiff.seconds],
      the seconds elapsed since local midnight at that time *)
  seconds_of_day : Z -> result Z;
  (** [time.time()] *)
  time_time : Z;
  (** [os.path.join] *)
  path_join : string -> string -> string;
  (** [self.config_dict['WEEWX_ROOT']] *)
  WEEWX_ROOT : string;
  (** [weeutil.weeutil.to_int], [to_float], and the builtins [int], [float]
      on strings *)
  to_int : option string -> result (option Z);
  to_float : option string -> result (option Q);
  py_int : string -> result Z;
  py_float : string -> result Q;
  (** [float(eval(expr))] in [generatePoints] (lines 397-398). [eval] runs
      in the frame of [generatePoints]: the expression sees the lists
      [start_vec], [stop_vec] and [data_vec] and may change them
      ([start_vec.append(1) or 2]). The answer is the value together with
      the lists as the evaluation leaves them, or the [Exception] raised *)
  eval_float : string -> point_vecs -> result (Q * point_vecs);
  (** [weewx.units.getStandardUnitType(std_unit_system, obs_type, agg_type)] *)
  getStandardUnitType :
    option Z -> string -> option string -> option string * option string;
  (** [weeplot.utilities.scaletime] *)
  scaletime : Z -> Z -> Z * Z * Z;
  (** [self.db_binder.get_manager(binding).lastGoodStamp()] *)
  lastGoodStamp : string -> result (option Z);
  (** [self.db_binder.get_manager(binding).getSqlVectors((start, stop),
      var_type, aggregate_type, aggregate_interval)] *)
  getSqlVectors :
    string -> Z * Z -> string -> option string -> option Z ->
    result (ValueTuple * ValueTuple * ValueTuple);
  (** [self.converter.convert] *)
  convert : ValueTuple -> result ValueTuple;
  (** [weewx.units.get_label_string(self.formatter, self.converter,
      var_type)] *)
  get_label_string : string -> result string;
  (** the dictionary under [self.title_dict]; the [KeyDict] wrapper answers
      with the key itself where the dictionary has none *)
  title_dict : gmap string string;
  (** [weeplot.utilities.tobgr] *)
  tobgr : string -> result Z;
  (** the settings of a plot read at lines 123-136 (y scaling, bottom label,
      location, day and night bands) from the plot options and the plot's
      timestamp, through helpers of [weeutil], [weeplot] and [time] *)
  decoration : Type;
  plot_decoration : gmap string string -> Z -> result decoration;
  (** the settings of a line read at lines 245-314 (line type, markers,
      flags, annotations, latest value, polar grid, label spacings) from
      the line options and the plot options, through helpers of [weeutil]
      and [weeplot] *)
  line_style : Type;
  line_styling : gmap string string -> gmap string string -> result line_style;
  (** whether [weeplot.genplot.TimePlot(plot_options)] constructs *)
  TimePlot_init : gmap string string -> result unit;
  (** [plot.render()] and [image.save(img_file)] *)
  image : Type;
  render : TimePlot decoration line_style -> result image;
  save : image -> string -> result unit;
  (** [self.skin_dict.get('log_success', True)] *)
  log_success : bool
}.

Section ImageGenerator.

Variable E : Collaborators.

(** ** [skipThisPlot] (lines 368-385) *)

Definition skipThisPlot (time_ts : Z) (aggregate_interval : option Z)
    (img_file : string) : result bool :=
  match aggregate_interval with
  | None => Ok false
  | Some ai =>
      match st_mtime E img_file with
      | None => Ok false
      | Some mtime =>
          if ai <=? time_ts - mtime then Ok false
          else
            match seconds_of_day E time_ts with
            | Raise e => Raise e
            | Ok seconds =>
                if ai =? 0 then Raise ZeroDivisionError
                else Ok (1 <? Z.abs (seconds mod ai))
            end
      end
  end.

(** ** [generatePoints] (lines 387-413) *)

(** The [for] loop of lines 395-401, from the lists built so far. The
    three [append]s act on the lists as the evaluation left them. *)
Fixpoint points_loop (func_def : string) (xs : list Z) (acc : point_vecs)
    : result point_vecs :=
  match xs with
  | [] => Ok acc
  | x :: xs' =>
      let expr := replace_x func_def (format_d x) in
      match eval_float E expr acc with
      | Raise e => Raise e
      | Ok (y, acc) =>
          points_loop func_def xs'
            (mkVecs (start_vec acc ++ [inject_Z x])
                    (stop_vec acc ++ [inject_Z x])
                    (data_vec acc ++ [y]))
      end
  end.

(** The [try] statement of lines 394-406: the vectors and what was logged. *)
Definition try_points (func_def : string) (xmin xmax xinc : Z)
    : point_vecs * list log_entry :=
  let attempt :=
    match py_range xmin xmax xinc with
    | Raise e => Raise e
    | Ok xs => points_loop func_def xs (mkVecs [] [] [])
    end in
  match attempt with
  | Ok vecs => (vecs, [])
  | Raise _ => (mkVecs [0%Q] [0%Q] [0%Q], [(LOG_ERR, EvalFailed func_def)])
  end.

Definition generatePoints (func_type func_def : string) (xmin xmax xinc : Z)
    : (ValueTuple * ValueTuple * ValueTuple) * list log_entry :=
  let std_unit_system : option Z := None in
  let aggregate_type : option string := None in
  let '(vecs, logged) := try_points func_def xmin xmax xinc in
  let '(time_type, time_group) :=
    getStandardUnitType E std_unit_system "dateTime" None in
  let '(data_type, data_group) :=
    getStandardUnitType E std_unit_system func_type aggregate_type in
  ((mkValueTuple (start_vec vecs) time_type time_group,
    mkValueTuple (stop_vec vecs) time_type time_group,
    mkValueTuple (data_vec vecs) data_type data_group),
   logged).

(** ** The locals of [genImages] and its monad *)

Abbreviation Plot := (TimePlot (decoration E) (line_style E)).

(** What survives from one iteration of the loops to the next: the local
    [stop_vec_t] (unbound until an assignment reaches it), the counter
    [ngen], and the images written so far. Every other local is assigned
    afresh before it is read. *)
Record locals : Type := mkLocals {
  stop_vec_t : option ValueTuple;
  ngen : nat;
  written : list (string * image E)
}.

Definition M (A : Type) : Type := locals -> result A * locals * list log_entry.

Definition ret {A} (a : A) : M A := fun s => (Ok a, s, []).

Definition bind {A B} (m : M A) (f : A -> M B) : M B :=
  fun s =>
    match m s with
    | (Ok a, s1, l1) => let '(r, s2, l2) := f a s1 in (r, s2, (l1 ++ l2)%list)
    | (Raise e, s1, l1) => (Raise e, s1, l1)
    end.

#[global] Instance M_ret : MRet M := @ret.
#[global] Instance M_bind : MBind M := fun A B f m => bind m f.

Definition raise {A} (e : exn) : M A := fun s => (Raise e, s, []).

Definition lift {A} (r : result A) : M A :=
  match r with Ok a => ret a | Raise e => raise e end.

Definition syslog (lvl : level) (msg : message) : M unit :=
  fun s => (Ok tt, s, [(lvl, msg)]).

Definition tell (logged : list log_entry) : M unit :=
  fun s => (Ok tt, s, logged).

(** [d[key]] *)
Definition getitem (d : gmap string string) (key : string) : M string :=
  match d !! key with
  | Some v => ret v
  | None => raise (KeyError key)
  end.

(** Reading and assigning the local [stop_vec_t]. *)
Definition read_stop_vec_t : M ValueTuple :=
  fun s =>
    match stop_vec_t s with
    | Some v => (Ok v, s, [])
    | None => (Raise (UnboundLocalError "stop_vec_t"), s, [])
    end.

Definition assign_stop_vec_t (v : ValueTuple) : M unit :=
  fun s => (Ok tt, mkLocals (Some v) (ngen s) (written s), []).

(** ** One line of a plot (lines 139-352) *)

(** [aggregate_type in (None, '', 'None', 'none')] *)
Definition no_aggregation (aggregate_type : option string) : bool :=
  match aggregate_type with
  | None => true
  | Some a => String.eqb a "" || String.eqb a "None" || String.eqb a "none"
  end.

(** Lines 148-160. [None]: the line is skipped ([continue]); otherwise the
    aggregation, type and interval together, if one is asked for. *)
Definition aggregation (line_options : gmap string string) (var_type : string)
    : M (option (option (string * Z))) :=
  let aggregate_type := line_options !! "aggregate_type" in
  match aggregate_type with
  | Some a =>
      if no_aggregation aggregate_type then ret (Some None)
      else
        match line_options !! "aggregate_interval" with
        | Some s =>
            aggregate_interval ← lift (py_int E s);
            ret (Some (Some (a, aggregate_interval)))
        | None =>
            syslog LOG_ERR (AggregateIntervalRequired a);;
            syslog LOG_ERR (LineTypeSkipped var_type);;
            ret None
        end
  | None => ret (Some None)
  end.

(** Lines 162-183. [None]: the line is skipped; otherwise [start_vec_t] and
    [data_vec_t]. The archive branch assigns [stop_vec_t]; the function
    branch assigns [end_vec_t], which nothing reads. *)
Definition fetch_vectors (line_options : gmap string string) (var_type : string)
    (agg : option (string * Z)) (minstamp maxstamp timeinc : Z)
    : M (option (ValueTuple * ValueTuple)) :=
  if String.eqb var_type "function" then
    let func_type := line_options !! "function_type" in
    let func_def := line_options !! "function_definition" in
    match func_type, func_def with
    | Some ft, Some fd =>
        let '((start_vec_t, end_vec_t, data_vec_t), logged) :=
          generatePoints ft fd minstamp maxstamp (timeinc / 50) in
        tell logged;;
        ret (Some (start_vec_t, data_vec_t))
    | _, _ =>
        (if func_type is None then syslog LOG_ERR NoFunctionType else ret tt);;
        (if func_def is None then syslog LOG_ERR NoFunctionDefinition
         else ret tt);;
        ret None
    end
  else
    binding ← getitem line_options "data_binding";
    vectors ← lift (getSqlVectors E binding (minstamp, maxstamp) var_type
                       (fst <$> agg) (snd <$> agg));
    let '(start_vec_t, stop, data_vec_t) := vectors in
    assign_stop_vec_t stop;;
    ret (Some (start_vec_t, data_vec_t)).

(** Lines 185-186. *)
Definition debug_assertion (start_vec_t : ValueTuple) : M unit :=
  if debug E then
    stop ← read_stop_vec_t;
    if Nat.eqb (len_vt start_vec_t) (len_vt stop) then ret tt
    else raise AssertionError
  else ret tt.

(** Lines 191-196: the test, and the list comprehension applied to a tuple. *)
Definition midpoint_types : list string := ["avg"; "max"; "min"].

Definition wants_midpoint (agg : option (string * Z)) (plot_type : string)
    : bool :=
  match agg with
  | Some (aggregate_type, _) =>
      negb (String.eqb aggregate_type "")
      && bool_decide (lower aggregate_type ∈ midpoint_types)
      && negb (String.eqb plot_type "bar")
  | None => false
  end.

Definition shift_back (aggregate_interval : Z) (v : ValueTuple) : ValueTuple :=
  mkValueTuple
    (List.map (fun x => (x - inject_Z aggregate_interval / 2)%Q) (value v))
    (unit_type v) (group v).

Definition align (agg : option (string * Z)) (plot_type : string)
    (start_vec_t : ValueTuple) : M ValueTuple :=
  match agg with
  | Some (_, aggregate_interval) =>
      if wants_midpoint agg plot_type then
        let start_vec_t' := shift_back aggregate_interval start_vec_t in
        stop ← read_stop_vec_t;
        assign_stop_vec_t (shift_back aggregate_interval stop);;
        ret start_vec_t'
      else ret start_vec_t
  | None => ret start_vec_t
  end.

(** Lines 198-201. *)
Definition conversions (start_vec_t data_vec_t : ValueTuple)
    : M (ValueTuple * ValueTuple * ValueTuple) :=
  new_start_vec_t ← lift (convert E start_vec_t);
  stop ← read_stop_vec_t;
  new_stop_vec_t ← lift (convert E stop);
  new_data_vec_t ← lift (convert E data_vec_t);
  ret (new_start_vec_t, new_stop_vec_t, new_data_vec_t).

(** Lines 226-243: [interval_vec], [vector_rotate] and [gap_fraction]. *)
Definition interval_vector (new_start_vec_t new_stop_vec_t : ValueTuple)
    : list Q :=
  List.map (fun p : Q * Q => (snd p - fst p)%Q)
           (combine (value new_start_vec_t) (value new_stop_vec_t)).

Definition in_unit_interval (g : Q) : bool := Qltb 0 g && Qltb g 1.

Definition special_treatments (line_options : gmap string string)
    (plot_type : string) (new_start_vec_t new_stop_vec_t : ValueTuple)
    : M (option (list Q) * option Q * option Q) :=
  if String.eqb plot_type "vector" then
    match line_options !! "vector_rotate" with
    | Some vector_rotate_str =>
        r ← lift (py_float E vector_rotate_str);
        ret (None, Some (- r)%Q, None)
    | None => ret (None, None, None)
    end
  else
    let interval_vec :=
      if String.eqb plot_type "bar"
      then Some (interval_vector new_start_vec_t new_stop_vec_t) else None in
    gap_fraction ←
      (if String.eqb plot_type "bar" then ret None
       else if String.eqb plot_type "line"
       then lift (to_float E (line_options !! "line_gap_fraction"))
       else ret None);
    match gap_fraction with
    | Some g =>
        if in_unit_interval g then ret (interval_vec, None, Some g)
        else
          syslog LOG_ERR (GapFractionIgnored g);;
          ret (interval_vec, None, None)
    | None => ret (interval_vec, None, None)
    end.

(** [tobgr] of an option that may be absent (lines 218-221). *)
Definition optional_color (c : option string) : M (option Z) :=
  match c with
  | Some c => bgr ← lift (tobgr E c); ret (Some bgr)
  | None => ret None
  end.

(** Lines 162-196: the vectors of the line before conversion, [start_vec_t]
    and [data_vec_t] returned and [stop_vec_t] in its local. [None]: the
    line is skipped. *)
Definition line_vectors (line_options : gmap string string) (var_type : string)
    (agg : option (string * Z)) (plot_type : string)
    (minstamp maxstamp timeinc : Z) : M (option (ValueTuple * ValueTuple)) :=
  fetched ← fetch_vectors line_options var_type agg minstamp maxstamp timeinc;
  match fetched with
  | Some (start_vec_t, data_vec_t) =>
      debug_assertion start_vec_t;;
      start_vec_t ← align agg plot_type start_vec_t;
      ret (Some (start_vec_t, data_vec_t))
  | None => ret None
  end.

(** Lines 198-352: conversion, labels, colours, the treatment special to
    the plot type, the remaining settings, and [plot.addLine]. *)
Definition draw_line (plot_options line_options : gmap string string)
    (var_type plot_type : string) (start_vec_t data_vec_t : ValueTuple)
    (plot : Plot) : M Plot :=
  converted ← conversions start_vec_t data_vec_t;
  let '(new_start_vec_t, new_stop_vec_t, new_data_vec_t) := converted in
  standard_label ← lift (get_label_string E var_type);
  let y_label := default standard_label (line_options !! "y_label") in
  let plot :=
    mkTimePlot (config plot) (x_scaling plot) (decor plot)
               (Some (strip y_label)) (line_list plot) in
  let generic_label := default var_type (title_dict E !! var_type) in
  let label :=
    match line_options !! "label" with
    | Some l => if String.eqb l "" then generic_label else l
    | None => generic_label
    end in
  color ← optional_color (line_options !! "color");
  fill_color ← optional_color (line_options !! "fill_color");
  width ← lift (to_int E (line_options !! "width"));
  special ← special_treatments line_options plot_type
               new_start_vec_t new_stop_vec_t;
  let '(interval_vec, vector_rotate, gap_fraction) := special in
  style ← lift (line_styling E line_options plot_options);
  let line :=
    mkPlotLine (value new_stop_vec_t) (value new_data_vec_t) label color
               fill_color width plot_type interval_vec vector_rotate
               gap_fraction style in
  ret (mkTimePlot (config plot) (x_scaling plot) (decor plot)
                  (unit_label plot) (line_list plot ++ [line])%list).

(** The body of the loop over the lines of a plot. *)
Definition genLine (plot_options : gmap string string)
    (minstamp maxstamp timeinc : Z) (plot : Plot) (section : LineSection)
    : M Plot :=
  let line_options := line_options section in
  let var_type := default (line_name section) (line_options !! "data_type") in
  let plot_type := default "line" (line_options !! "plot_type") in
  agg ← aggregation line_options var_type;
  match agg with
  | Some agg =>
      vectors ← line_vectors line_options var_type agg plot_type
                  minstamp maxstamp timeinc;
      match vectors with
      | Some (start_vec_t, data_vec_t) =>
          draw_line plot_options line_options var_type plot_type
                    start_vec_t data_vec_t plot
      | None => ret plot
      end
  | None => ret plot
  end.

Fixpoint genLines (plot_options : gmap string string)
    (minstamp maxstamp timeinc : Z) (plot : Plot)
    (sections : list LineSection) : M Plot :=
  match sections with
  | [] => ret plot
  | section :: rest =>
      plot' ← genLine plot_options minstamp maxstamp timeinc plot section;
      genLines plot_options minstamp maxstamp timeinc plot' rest
  end.

(** ** One plot (lines 71-362) *)

(** The truth value Python gives an optional timestamp. *)
Definition truthy (ts : option Z) : option Z :=
  match ts with
  | Some t => if t =? 0 then None else Some t
  | None => None
  end.

(** Lines 75-81. *)
Definition plot_timestamp (gen_ts : option Z)
    (plot_options : gmap string string) : M Z :=
  match truthy gen_ts with
  | Some plotgen_ts => ret plotgen_ts
  | None =>
      binding ← getitem plot_options "data_binding";
      last ← lift (lastGoodStamp E binding);
      match truthy last with
      | Some plotgen_ts => ret plotgen_ts
      | None => ret (time_time E)
      end
  end.

(** Lines 93-103. [true]: the image is fresh and the plot is skipped. *)
Definition fresh_image (plot_options : gmap string string)
    (img_file : string) : M bool :=
  stale ← lift (to_int E (plot_options !! "stale_age"));
  match stale with
  | Some stale =>
      let t_now := time_time E in
      match st_mtime E img_file with
      | Some last_mod =>
          if t_now - last_mod <? stale then
            syslog LOG_DEBUG
                   (SkipFresh img_file last_mod (t_now - last_mod) stale);;
            ret true
          else ret false
      | None => ret false
      end
  | None => ret false
  end.

(** [int(plot_options.get('time_length', 86400))] *)
Definition time_length_of (plot_options : gmap string string) : result Z :=
  match plot_options !! "time_length" with
  | Some s => py_int E s
  | None => Ok 86400
  end.

(** Lines 115-121: the scaling handed to [plot.setXScaling]. *)
Definition time_scaling (plot_options : gmap string string) (plotgen_ts : Z)
    : M (Z * Z * Z) :=
  time_length ← lift (time_length_of plot_options);
  let '(minstamp, maxstamp, timeinc) :=
    scaletime E (plotgen_ts - time_length) plotgen_ts in
  timeinc_user ← lift (to_int E (plot_options !! "x_interval"));
  let timeinc :=
    match timeinc_user with
    | Some user => user
    | None => timeinc
    end in
  ret (minstamp, maxstamp, timeinc).

(** Lines 354-362. *)
Definition count_image (img_file : string) (img : image E) : M unit :=
  fun s =>
    (Ok tt,
     mkLocals (stop_vec_t s) (S (ngen s)) (written s ++ [(img_file, img)])%list,
     []).

Definition render_and_save (plot : Plot) (img_file : string) : M unit :=
  img ← lift (render E plot);
  match save E img img_file with
  | Ok _ => count_image img_file img
  | Raise IOError => syslog LOG_CRIT (UnableToSave img_file)
  | Raise e => raise e
  end.

(** Lines 105-362, for a plot that is not skipped. Creating the directory
    of the image (lines 105-110) leaves nothing that is read again. *)
Definition draw_plot (plot_options : gmap string string) (plotgen_ts : Z)
    (img_file : string) (sections : list LineSection) : M unit :=
  lift (TimePlot_init E plot_options);;
  scaling ← time_scaling plot_options plotgen_ts;
  let '(minstamp, maxstamp, timeinc) := scaling in
  deco ← lift (plot_decoration E plot_options plotgen_ts);
  let plot := mkTimePlot plot_options scaling deco None [] in
  plot ← genLines plot_options minstamp maxstamp timeinc plot sections;
  render_and_save plot img_file.

(** The body of the loop over the plots of a time span. *)
Definition genPlot (gen_ts : option Z) (section : PlotSection) : M unit :=
  let plot_options := plot_options section in
  plotgen_ts ← plot_timestamp gen_ts plot_options;
  html_root ← getitem plot_options "HTML_ROOT";
  let image_root := path_join E (WEEWX_ROOT E) html_root in
  let img_file := path_join E image_root (plotname section ++ ".png") in
  ai ← lift (to_int E (plot_options !! "aggregate_interval"));
  skip ← lift (skipThisPlot plotgen_ts ai img_file);
  match skip with
  | true => ret tt
  | false =>
      fresh ← fresh_image plot_options img_file;
      match fresh with
      | true => ret tt
      | false =>
          draw_plot plot_options plotgen_ts img_file (line_sections section)
      end
  end.

(** ** [genImages] (lines 52-366) *)

Fixpoint genPlots (gen_ts : option Z) (plots : list PlotSection) : M unit :=
  match plots with
  | [] => ret tt
  | section :: rest => genPlot gen_ts section;; genPlots gen_ts rest
  end.

Fixpoint genSpans (gen_ts : option Z) (spans : list (list PlotSection))
    : M unit :=
  match spans with
  | [] => ret tt
  | plots :: rest => genPlots gen_ts plots;; genSpans gen_ts rest
  end.

Definition report_success : M unit :=
  fun s =>
    (Ok tt, s,
     if log_success E then [(LOG_INFO, Generated (ngen s))] else []).

Definition genImages (gen_ts : option Z) (image_dict : list (list PlotSection))
    : result unit * locals * list log_entry :=
  (genSpans gen_ts image_dict;; report_success) (mkLocals None 0 []).

End ImageGenerator.

Abbreviation PlotOf E := (TimePlot (decoration E) (line_style E)).

(** ** Notions the statements use *)

(** What the loop of [generatePoints] keeps true of its three lists. *)
Definition aligned (v : point_vecs) : Prop :=
  start_vec v = stop_vec v /\ length (start_vec v) = length (data_vec v).

(** The single sample the fallback of [generatePoints] leaves, with the
    unit of its vector. *)
Definition zero_sample (unit : option string * option string) : ValueTuple :=
  mkValueTuple [0%Q] (fst unit) (snd unit).

(** [v'] holds the samples of [v], each moved by [d]. *)
Definition shifted_by (d : Q) (v v' : list Q) : Prop :=
  length v' = length v /\
  forall i, (i < length v)%nat -> (nth i v' 0 == nth i v 0 + d)%Q.

(** A line asks for an aggregate and gives no interval. *)
Definition lacks_interval (section : LineSection) (aggregate_type : string)
    : Prop :=
  line_options section !! "aggregate_type" = Some aggregate_type /\
  aggregate_type <> "" /\ aggregate_type <> "None" /\
  aggregate_type <> "none" /\
  line_options section !! "aggregate_interval" = None.

(** The result and the locals of a run, the log left aside. *)
Definition outcome {S A : Type} (run : result A * S * list log_entry)
    : result A * S := fst run.

(** Two computations agree up to what they log. *)
Definition same_outcome {E : Collaborators} {A : Type} (m1 m2 : M E A) : Prop :=
  forall s, outcome (m1 s) = outcome (m2 s).

(** The options of a line settle its aggregation as [agg]: none when the
    aggregate type is absent or one of the spellings of none, a type with
    the interval that [int] reads otherwise. *)
Definition aggregates_as (E : Collaborators) (line_options : gmap string string)
    (agg : option (string * Z)) : Prop :=
  match agg with
  | None => no_aggregation (line_options !! "aggregate_type") = true
  | Some (aggregate_type, aggregate_interval) =>
      line_options !! "aggregate_type" = Some aggregate_type /\
      no_aggregation (Some aggregate_type) = false /\
      exists s,
        line_options !! "aggregate_interval" = Some s /\
        py_int E s = Ok aggregate_interval
  end.

(** A computation appends at most [n] images to those written, counts
    each of them, and keeps the earlier ones. *)
Definition adds_images {E : Collaborators} {A : Type} (n : nat) (m : M E A)
    : Prop :=
  forall s r s' l,
    m s = (r, s', l) ->
    exists added,
      written E s' = (written E s ++ added)%list /\
      ngen E s' = (ngen E s + length added)%nat /\
      (length added <= n)%nat.

(** Every run of a computation takes the locals to locals related by [R]. *)
Definition respects {E : Collaborators} {A : Type}
    (R : locals E -> locals E -> Prop) (m : M E A) : Prop :=
  forall s r s' l, m s = (r, s', l) -> R s s'.

(** The local [stop_vec_t] stays bound once it is. *)
Definition stays_bound {E : Collaborators} (s s' : locals E) : Prop :=
  is_Some (stop_vec_t E s) -> is_Some (stop_vec_t E s').

(** The evaluation of a function definition at the points [xs] leaves the
    lists of [generatePoints] as it finds them. *)
Definition leaves_lists_alone (E : Collaborators) (func_def : string)
    (xs : list Z) : Prop :=
  forall x vecs y vecs',
    In x xs ->
    eval_float E (replace_x func_def (format_d x)) vecs = Ok (y, vecs') ->
    vecs' = vecs.

(** The label of a line (lines 210-215). *)
Definition line_label (E : Collaborators) (line_options : gmap string string)
    (var_type : string) : string :=
  match line_options !! "label" with
  | Some l =>
      if String.eqb l "" then default var_type (title_dict E !! var_type)
      else l
  | None => default var_type (title_dict E !! var_type)
  end.

(** The fields special to a plot type are set on lines of that type only,
    a gap fraction lies inside (0,1), and a bar has no more widths than
    points. *)
Definition treated_by_type {style : Type} (line : PlotLine style) : Prop :=
  (is_Some (bar_width line) <-> plot_type line = "bar") /\
  (forall g, gap_fraction line = Some g ->
             plot_type line = "line" /\ (0 < g /\ g < 1)%Q) /\
  (forall r, vector_rotate line = Some r -> plot_type line = "vector") /\
  (forall widths, bar_width line = Some widths ->
                  (length widths <= length (x line))%nat).

(** A line carries the plot type and the label that the options of a
    section give it. *)
Definition drawn_for (E : Collaborators) (section : LineSection)
    (line : PlotLine (line_style E)) : Prop :=
  plot_type line = default "line" (line_options section !! "plot_type") /\
  label line
  = line_label E (line_options section)
      (default (line_name section) (line_options section !! "data_type")).

(** The path [genImages] gives the image of a plot. *)
Definition image_path (E : Collaborators) (section : PlotSection)
    (html_root : string) : string :=
  path_join E (path_join E (WEEWX_ROOT E) html_root)
            (plotname section ++ ".png").

(** The messages for the function options a line leaves out. *)
Definition missing_function_options (line_options : gmap string string)
    : list log_entry :=
  ((if line_options !! "function_type" is None
    then [(LOG_ERR, NoFunctionType)] else [])
   ++ (if line_options !! "function_definition" is None
       then [(LOG_ERR, NoFunctionDefinition)] else []))%list.

(** ** A station to run the generator on

    Collaborators small enough to evaluate: a clock on UTC with the
    calendar of [datetime], an archive with two observation types, a
    converter that leaves its argument alone, and decimal readers for the
    options. *)

Module Station.

Definition read_int (s : string) : result Z :=
  match NilZero.int_of_string s with
  | Some i => Ok (Z.of_int i)
  | None => Raise ValueError
  end.

Definition read_optional_int (o : option string) : result (option Z) :=
  match o with
  | Some s => if String.eqb (lower s) "none" then Ok None
              else match read_int s with
                   | Ok z => Ok (Some z)
                   | Raise e => Raise e
                   end
  | None => Ok None
  end.

(** The decimals the options below use, and integers. *)
Definition read_float (s : string) : result Q :=
  if String.eqb s "0.5" then Ok (1 # 2)%Q
  else if String.eqb s "1.5" then Ok (3 # 2)%Q
  else match read_int s with
       | Ok z => Ok (inject_Z z)
       | Raise e => Raise e
       end.

Definition read_optional_float (o : option string) : result (option Q) :=
  match o with
  | Some s => if String.eqb (lower s) "none" then Ok None
              else match read_float s with
                   | Ok q => Ok (Some q)
                   | Raise e => Raise e
                   end
  | None => Ok None
  end.

Definition seconds (l : list Z) : ValueTuple :=
  mkValueTuple (List.map inject_Z l) (Some "unix_epoch") (Some "group_time").

Definition degrees (l : list Q) : ValueTuple :=
  mkValueTuple l (Some "degree_C") (Some "group_temperature").

(** The seconds since midnight UTC, for a timestamp between the first
    second of year 1 and the last of year 9999. *)
Definition utc_seconds_of_day (t : Z) : result Z :=
  if (-62135596800 <=? t) && (t <? 253402300800) then Ok (t mod 86400)
  else Raise ValueError.

(** [outTemp] honours the contract; [inTemp] answers with one stop
    timestamp fewer than start timestamps. *)
Definition archive (binding : string) (span : Z * Z) (var_type : string)
    (aggregate_type : option string) (aggregate_interval : option Z)
    : result (ValueTuple * ValueTuple * ValueTuple) :=
  if String.eqb var_type "outTemp" then
    Ok (seconds [3600; 7200], seconds [7200; 10800], degrees [20; 21]%Q)
  else if String.eqb var_type "inTemp" then
    Ok (seconds [3600; 7200], seconds [7200], degrees [18; 19]%Q)
  else Raise (ForeignError "no such column").

(** The arithmetic the evaluator knows: constants and the reciprocal [1/n]
    of an integer, which Python 2 rounds down and refuses for zero. *)
Definition arithmetic (expr : string) : result Q :=
  match expr with
  | String "1" (String "/" n) =>
      match read_int n with
      | Ok z =>
          if z =? 0 then Raise ZeroDivisionError else Ok (inject_Z (1 / z))
      | Raise e => Raise e
      end
  | _ => read_float expr
  end.

(** The evaluator. One expression with a side effect is known to it:
    [start_vec.append(1) or 2] appends 1 to [start_vec] and, [append]
    returning [None], has the value 2. Arithmetic leaves the lists alone. *)
Definition evaluate (expr : string) (vecs : point_vecs)
    : result (Q * point_vecs) :=
  if String.eqb expr "start_vec.append(1) or 2" then
    Ok (2%Q, mkVecs (start_vec vecs ++ [1%Q]) (stop_vec vecs) (data_vec vecs))
  else
    match arithmetic expr with
    | Ok y => Ok (y, vecs)
    | Raise e => Raise e
    end.

Definition station (debugging : bool) : Collaborators := {|
  debug := debugging;
  st_mtime := fun f =>
    if String.eqb f "/home/weewx/public_html/daytemp.png" then Some 172700
    else None;
  seconds_of_day := utc_seconds_of_day;
  time_time := 172900;
  path_join := fun a b => a ++ "/" ++ b;
  WEEWX_ROOT := "/home/weewx";
  to_int := read_optional_int;
  to_float := read_optional_float;
  py_int := read_int;
  py_float := read_float;
  eval_float := evaluate;
  getStandardUnitType := fun _ _ _ => (None, None);
  scaletime := fun lo hi => (lo, hi, 10800);
  lastGoodStamp := fun _ => Ok (Some 172800);
  getSqlVectors := archive;
  convert := fun v => Ok v;
  get_label_string := fun _ => Ok " C ";
  title_dict := {[ "outTemp" := "Outside Temperature" ]};
  tobgr := read_int;
  decoration := unit;
  plot_decoration := fun _ _ => Ok tt;
  line_style := unit;
  line_styling := fun _ _ => Ok tt;
  TimePlot_init := fun _ => Ok tt;
  image := TimePlot unit unit;
  render := fun plot => Ok plot;
  save := fun _ _ => Ok tt;
  log_success := true
|}.

Definition day_options : gmap string string :=
  {[ "HTML_ROOT" := "public_html"; "data_binding" := "wx_binding" ]}.

Definition empty_plot : TimePlot unit unit :=
  mkTimePlot day_options (86400, 172800, 10800) tt None [].

Definition nothing : locals (station false) :=
  mkLocals (station false) None 0 [].

(** Lines of a plot. *)
Definition outTemp_avg : LineSection :=
  mkLineSection "outTemp"
    {[ "data_binding" := "wx_binding"; "aggregate_type" := "avg";
       "aggregate_interval" := "3600" ]}.

Definition outTemp_bar : LineSection :=
  mkLineSection "outTemp"
    {[ "data_binding" := "wx_binding"; "plot_type" := "bar";
       "aggregate_type" := "Max"; "aggregate_interval" := "3600" ]}.

Definition outTemp_gap : LineSection :=
  mkLineSection "outTemp"
    {[ "data_binding" := "wx_binding"; "line_gap_fraction" := "1.5" ]}.

Definition outTemp_no_interval : LineSection :=
  mkLineSection "outTemp"
    {[ "data_binding" := "wx_binding"; "aggregate_type" := "avg" ]}.

Definition inTemp_raw : LineSection :=
  mkLineSection "inTemp" {[ "data_binding" := "wx_binding" ]}.

Definition ramp_avg : LineSection :=
  mkLineSection "ramp"
    {[ "data_type" := "function"; "function_type" := "outTemp";
       "function_definition" := "x"; "aggregate_type" := "avg";
       "aggregate_interval" := "3600" ]}.

Definition outTemp_none : LineSection :=
  mkLineSection "outTemp"
    {[ "data_binding" := "wx_binding"; "aggregate_type" := "none";
       "aggregate_interval" := "hourly" ]}.

Definition outTemp_hourly : LineSection :=
  mkLineSection "outTemp"
    {[ "data_binding" := "wx_binding"; "aggregate_type" := "avg";
       "aggregate_interval" := "hourly" ]}.

Definition ramp_undefined : LineSection :=
  mkLineSection "ramp"
    {[ "data_type" := "function"; "function_type" := "outTemp" ]}.

Definition ramp_broken : LineSection :=
  mkLineSection "ramp"
    {[ "data_type" := "function"; "function_type" := "outTemp";
       "function_definition" := "1/0" ]}.

Definition wind_vector : LineSection :=
  mkLineSection "outTemp"
    {[ "data_binding" := "wx_binding"; "plot_type" := "vector";
       "vector_rotate" := "90"; "line_gap_fraction" := "1.5";
       "y_label" := "  knots " ]}.

(** The station again, with the labels, the disk and the last record of
    the archive left open. *)
Definition outfit (labels : string -> result string)
    (saving : string -> result unit) (last_stamp : option Z)
    : Collaborators := {|
  debug := false;
  st_mtime := fun f =>
    if String.eqb f "/home/weewx/public_html/daytemp.png" then Some 172700
    else None;
  seconds_of_day := utc_seconds_of_day;
  time_time := 172900;
  path_join := fun a b => a ++ "/" ++ b;
  WEEWX_ROOT := "/home/weewx";
  to_int := read_optional_int;
  to_float := read_optional_float;
  py_int := read_int;
  py_float := read_float;
  eval_float := evaluate;
  getStandardUnitType := fun _ _ _ => (None, None);
  scaletime := fun lo hi => (lo, hi, 10800);
  lastGoodStamp := fun _ => Ok last_stamp;
  getSqlVectors := archive;
  convert := fun v => Ok v;
  get_label_string := labels;
  title_dict := {[ "outTemp" := "Outside Temperature" ]};
  tobgr := read_int;
  decoration := unit;
  plot_decoration := fun _ _ => Ok tt;
  line_style := unit;
  line_styling := fun _ _ => Ok tt;
  TimePlot_init := fun _ => Ok tt;
  image := TimePlot unit unit;
  render := fun plot => Ok plot;
  save := fun _ => saving;
  log_success := true
|}.

(** Plots of a day: one with hourly aggregates, whose image exists, one
    that goes stale after ten minutes, one without its [HTML_ROOT]. *)
Definition daytemp : PlotSection :=
  mkPlotSection "daytemp" (<[ "aggregate_interval" := "3600" ]> day_options)
                [outTemp_avg].

Definition daytemp_stale : PlotSection :=
  mkPlotSection "daytemp" (<[ "stale_age" := "600" ]> day_options)
                [outTemp_avg].

Definition homeless : PlotSection :=
  mkPlotSection "daytemp" {[ "data_binding" := "wx_binding" ]} [outTemp_avg].

Definition vector_plot : TimePlot unit unit :=
  mkTimePlot day_options (86400, 172800, 10800) tt (Some "knots")
    [mkPlotLine [7200; 10800]%Q [20; 21]%Q "Outside Temperature" None None
                None "vector" None (Some (-90)%Q) None tt].

(** A pass over one plot of one time span. *)
Definition inside_pass : list (list PlotSection) :=
  [[mkPlotSection "dayinside" day_options [inTemp_raw]]].

(** A pass whose first line is a function that cannot be evaluated. *)
Definition broken_pass : list (list PlotSection) :=
  [[mkPlotSection "dayramp" day_options [ramp_broken; outTemp_gap]]].

(** Plots the lines above lead to. *)
Definition inside_plot : TimePlot unit unit :=
  mkTimePlot day_options (86400, 172800, 10800) tt (Some "C")
    [mkPlotLine [7200]%Q [18; 19]%Q "inTemp" None None None "line" None None
                None tt].

Definition bar_plot : TimePlot unit unit :=
  mkTimePlot day_options (86400, 172800, 10800) tt (Some "C")
    [mkPlotLine [7200; 10800]%Q [20; 21]%Q "Outside Temperature" None None
                None "bar" (Some [3600; 3600]%Q) None None tt].

Definition bar_and_vector_plot : TimePlot unit unit :=
  mkTimePlot day_options (86400, 172800, 10800) tt (Some "knots")
    [mkPlotLine [7200; 10800]%Q [20; 21]%Q "Outside Temperature" None None
                None "bar" (Some [3600; 3600]%Q) None None tt;
     mkPlotLine [7200; 10800]%Q [20; 21]%Q "Outside Temperature" None None
                None "vector" None (Some (-90)%Q) None tt].

Definition gap_plot : TimePlot unit unit :=
  mkTimePlot day_options (86400, 172800, 10800) tt (Some "C")
    [mkPlotLine [7200; 10800]%Q [20; 21]%Q "Outside Temperature" None None
                None "line" None None None tt].

End Station.

(** * Properties *)

(** ** The Python runtime helpers *)

(** [range(lo, hi, step)] holds the numbers [lo + k * step] that lie before
    [hi] in the direction of the step. *)
Lemma range_list_spec (lo hi step x : Z) :
  In x (range_list lo hi step) <->
  (0 < step /\ lo <= x < hi /\ (x - lo) mod step = 0) \/
  (step < 0 /\ hi < x <= lo /\ (lo - x) mod (- step) = 0).
Proof.
  unfold range_list, range_length. rewrite in_map_iff.
  destruct (Z.ltb_spec 0 step) as [Hpos | Hneg].
  - split.
    + intros (k & <- & Hk). apply in_seq in Hk. left.
      assert (Z.of_nat k < (hi - lo + step - 1) / step) as Hlt by lia.
      assert (step * (Z.of_nat k + 1) <= hi - lo + step - 1) as Hb.
      { etransitivity; [| apply (Z.mul_div_le _ step); lia].
        apply Z.mul_le_mono_nonneg_l; lia. }
      repeat split; try nia.
      replace (lo + Z.of_nat k * step - lo) with (Z.of_nat k * step) by lia.
      apply Z.mod_mul. lia.
    + intros [(_ & Hx & Hm) | (Hs & _)]; [| lia].
      apply Z.mod_divide in Hm; [| lia]. destruct Hm as [q Hq].
      assert (0 <= q) by nia.
      exists (Z.to_nat q). split; [lia |].
      apply in_seq. split; [lia |]. simpl.
      assert (q < (hi - lo + step - 1) / step); [| lia].
      assert (q + 1 <= (hi - lo + step - 1) / step); [| lia].
      apply Z.div_le_lower_bound; nia.
  - split.
    + intros (k & <- & Hk). apply in_seq in Hk. right.
      destruct (Z.eq_dec step 0) as [-> | Hnz].
      { rewrite Z.div_0_r in Hk. simpl in Hk. lia. }
      assert (Z.of_nat k < (lo - hi - step - 1) / (- step)) as Hlt by lia.
      assert (- step * (Z.of_nat k + 1) <= lo - hi - step - 1) as Hb.
      { etransitivity; [| apply (Z.mul_div_le _ (- step)); lia].
        apply Z.mul_le_mono_nonneg_l; lia. }
      repeat split; try nia.
      replace (lo - (lo + Z.of_nat k * step)) with (Z.of_nat k * - step) by lia.
      apply Z.mod_mul. lia.
    + intros [(Hs & _) | (Hs & Hx & Hm)]; [lia |].
      apply Z.mod_divide in Hm; [| lia]. destruct Hm as [q Hq].
      assert (0 <= q) by nia.
      exists (Z.to_nat q). split; [nia |].
      apply in_seq. split; [lia |]. simpl.
      assert (q + 1 <= (lo - hi - step - 1) / (- step)); [| lia].
      apply Z.div_le_lower_bound; nia.
Qed.

(** ** The skip decision *)

Section SkipDecision.

Variable E : Collaborators.

(** Past the two early returns the answer is the test of line 385, on the
    offset from local midnight that lines 383-384 find. *)
Lemma skipThisPlot_fresh (time_ts ai mtime offset : Z) (img_file : string) :
  st_mtime E img_file = Some mtime ->
  time_ts - mtime < ai ->
  ai <> 0 ->
  seconds_of_day E time_ts = Ok offset ->
  skipThisPlot E time_ts (Some ai) img_file
  = Ok (1 <? Z.abs (offset mod ai)).
Proof.
  intros Hm Hfresh Hnz Hoffset. unfold skipThisPlot. rewrite Hm, Hoffset.
  destruct (Z.leb_spec ai (time_ts - mtime)); [lia |].
  destruct (Z.eqb_spec ai 0); [contradiction | reflexivity].
Qed.

(** C1, as amended: for an image that exists and is fresh, a timestamp on an
    aggregation boundary (its offset from local midnight, modulo the
    interval, equal to 0) makes [skipThisPlot] return false, so that the
    plot is generated again; an offset of half the interval, when that is
    more than one second, makes it return true. The offset is that of the
    local time [fromtimestamp] gives the timestamp. *)
Theorem skipThisPlot_boundary_regenerates
    (time_ts ai mtime offset : Z) (img_file : string) :
  st_mtime E img_file = Some mtime ->
  time_ts - mtime < ai ->
  ai <> 0 ->
  seconds_of_day E time_ts = Ok offset ->
  (offset mod ai = 0 ->
   skipThisPlot E time_ts (Some ai) img_file = Ok false) /\
  (offset mod ai = ai / 2 ->
   1 < Z.abs (ai / 2) ->
   skipThisPlot E time_ts (Some ai) img_file = Ok true).
Proof.
  intros Hm Hfresh Hnz Hoffset.
  rewrite (skipThisPlot_fresh _ _ _ _ _ Hm Hfresh Hnz Hoffset).
  split.
  - intros ->. reflexivity.
  - intros -> Hhalf. f_equal. apply Z.ltb_lt. exact Hhalf.
Qed.

(** C8: [skipThisPlot] returns false whenever the aggregate interval is
    unset, or the image file does not exist, or the image is at least one
    aggregate interval older than the target timestamp. *)
Theorem skipThisPlot_must_generate
    (time_ts : Z) (aggregate_interval : option Z) (img_file : string) :
  aggregate_interval = None \/
  st_mtime E img_file = None \/
  (exists ai mtime,
      aggregate_interval = Some ai /\
      st_mtime E img_file = Some mtime /\
      time_ts - mtime >= ai) ->
  skipThisPlot E time_ts aggregate_interval img_file = Ok false.
Proof.
  unfold skipThisPlot.
  intros [-> | [Hmissing | (ai & mtime & -> & Hm & Hold)]].
  - reflexivity.
  - rewrite Hmissing. destruct aggregate_interval; reflexivity.
  - rewrite Hm. destruct (Z.leb_spec ai (time_ts - mtime)); [reflexivity | lia].
Qed.

End SkipDecision.

(** C1, as stated, fails: at midnight UTC, with an image one hundred seconds
    old and an interval of one hour, the offset is 0 and the decision is
    false, not true; half an hour later the offset is half the interval and
    the decision is true, not false. *)
Lemma skipThisPlot_boundary_counterexample :
  let E := Station.station false in
  let img_file := "/home/weewx/public_html/daytemp.png" in
  (seconds_of_day E 172800 = Ok 0 /\
   0 mod 3600 = 0 /\
   st_mtime E img_file = Some 172700 /\
   172800 - 172700 < 3600 /\
   skipThisPlot E 172800 (Some 3600) img_file <> Ok true) /\
  (seconds_of_day E 174600 = Ok 1800 /\
   1800 mod 3600 = 3600 / 2 /\
   174600 - 172700 < 3600 /\
   skipThisPlot E 174600 (Some 3600) img_file <> Ok false).
Proof.
  cbv zeta. repeat split; try reflexivity; vm_compute; congruence.
Qed.

Lemma skipThisPlot_boundary_regenerates_witness :
  let E := Station.station false in
  let img_file := "/home/weewx/public_html/daytemp.png" in
  skipThisPlot E 172800 (Some 3600) img_file = Ok false /\
  skipThisPlot E 174600 (Some 3600) img_file = Ok true.
Proof.
  cbv zeta. split.
  - apply (skipThisPlot_boundary_regenerates (Station.station false)
             172800 3600 172700 0);
      [reflexivity | lia | lia | reflexivity | reflexivity].
  - apply (skipThisPlot_boundary_regenerates (Station.station false)
             174600 3600 172700 1800);
      [reflexivity | lia | lia | reflexivity | reflexivity | reflexivity].
Defined.

Lemma skipThisPlot_must_generate_witness :
  let E := Station.station false in
  skipThisPlot E 180000 (Some 3600) "/home/weewx/public_html/daytemp.png"
  = Ok false.
Proof.
  cbv zeta. apply skipThisPlot_must_generate.
  right. right. exists 3600, 172700.
  split; [reflexivity | split; [reflexivity | lia]].
Defined.

(** ** The synthesised points *)

Section GeneratePoints.

Variable E : Collaborators.

Lemma leaves_lists_alone_tail (func_def : string) (x : Z) (xs : list Z) :
  leaves_lists_alone E func_def (x :: xs) -> leaves_lists_alone E func_def xs.
Proof.
  intros Halone x' vecs y vecs' Hin. apply (Halone x'). right. exact Hin.
Qed.

Lemma points_loop_aligned (func_def : string) (xs : list Z) :
  leaves_lists_alone E func_def xs ->
  forall acc r,
    points_loop E func_def xs acc = Ok r -> aligned acc -> aligned r.
Proof.
  induction xs as [| x xs IH]; simpl; intros Halone acc r Hloop Hacc.
  - congruence.
  - destruct (eval_float E (replace_x func_def (format_d x)) acc)
      as [[y acc'] | e] eqn:Heval; [| discriminate].
    assert (acc' = acc) as ->
      by (apply (Halone x acc y acc'); [left; reflexivity | exact Heval]).
    apply (IH (leaves_lists_alone_tail _ _ _ Halone) _ _ Hloop).
    destruct Hacc as [Heq Hlen].
    split; simpl; [congruence |].
    rewrite !length_app, Hlen. reflexivity.
Qed.

(** The fallback leaves the single zero sample, and it is the only path
    that logs. *)
Lemma try_points_fallback (func_def : string) (xmin xmax xinc : Z) :
  snd (try_points E func_def xmin xmax xinc) <> [] ->
  try_points E func_def xmin xmax xinc
  = (mkVecs [0%Q] [0%Q] [0%Q], [(LOG_ERR, EvalFailed func_def)]).
Proof.
  unfold try_points.
  destruct (match py_range xmin xmax xinc with
            | Ok xs => points_loop E func_def xs (mkVecs [] [] [])
            | Raise e => Raise e
            end) as [vecs | e]; simpl; [contradiction | reflexivity].
Qed.

Lemma try_points_aligned (func_def : string) (xmin xmax xinc : Z) :
  leaves_lists_alone E func_def (range_list xmin xmax xinc) \/
  snd (try_points E func_def xmin xmax xinc) <> [] ->
  aligned (fst (try_points E func_def xmin xmax xinc)).
Proof.
  intros [Halone | Hlogged].
  - unfold try_points, py_range.
    destruct (xinc =? 0); [split; reflexivity |].
    destruct (points_loop E func_def _ _) as [r | e] eqn:Hloop.
    + apply (points_loop_aligned _ _ Halone _ _ Hloop). split; reflexivity.
    + split; reflexivity.
  - rewrite (try_points_fallback _ _ _ _ Hlogged). split; reflexivity.
Qed.

Lemma points_loop_raises (func_def : string) (x : Z) (e : exn) (xs : list Z) :
  In x xs ->
  (forall vecs, eval_float E (replace_x func_def (format_d x)) vecs = Raise e) ->
  forall acc, exists e', points_loop E func_def xs acc = Raise e'.
Proof.
  intros Hin Hfail.
  induction xs as [| x' xs IH]; simpl; intros acc; [contradiction |].
  destruct (eval_float E (replace_x func_def (format_d x')) acc)
    as [[y acc'] | e'] eqn:Hx'.
  - destruct Hin as [-> | Hin]; [| apply (IH Hin)].
    rewrite Hfail in Hx'. discriminate Hx'.
  - exists e'. reflexivity.
Qed.

Lemma try_points_degrades (func_def : string) (xmin xmax xinc x : Z) (e : exn) :
  In x (range_list xmin xmax xinc) ->
  (forall vecs, eval_float E (replace_x func_def (format_d x)) vecs = Raise e) ->
  try_points E func_def xmin xmax xinc
  = (mkVecs [0%Q] [0%Q] [0%Q], [(LOG_ERR, EvalFailed func_def)]).
Proof.
  intros Hin Hfail. unfold try_points, py_range.
  destruct (xinc =? 0); [reflexivity |].
  destruct (points_loop_raises _ _ _ _ Hin Hfail (mkVecs [] [] [])) as [e' ->].
  reflexivity.
Qed.

(** When the evaluation of the expression fails for a sample of the range,
    [generatePoints] returns three vectors that hold the single sample 0
    each and logs the failure; the samples gathered before the failure are
    gone, and the function branch of the line has these vectors in
    [start_vec_t], [end_vec_t] and [data_vec_t]. *)
Lemma generatePoints_degrades_to_zero
    (func_type func_def : string) (xmin xmax xinc x : Z) (e : exn) :
  In x (range_list xmin xmax xinc) ->
  (forall vecs, eval_float E (replace_x func_def (format_d x)) vecs = Raise e) ->
  let time_unit := getStandardUnitType E None "dateTime" None in
  let data_unit := getStandardUnitType E None func_type None in
  generatePoints E func_type func_def xmin xmax xinc
  = ((zero_sample time_unit, zero_sample time_unit, zero_sample data_unit),
     [(LOG_ERR, EvalFailed func_def)]) /\
  forall (line_options : gmap string string) agg timeinc s,
    line_options !! "function_type" = Some func_type ->
    line_options !! "function_definition" = Some func_def ->
    timeinc / 50 = xinc ->
    fetch_vectors E line_options "function" agg xmin xmax timeinc s
    = (Ok (Some (zero_sample time_unit, zero_sample data_unit)), s,
       [(LOG_ERR, EvalFailed func_def)]).
Proof.
  intros Hin Hfail time_unit data_unit.
  assert (generatePoints E func_type func_def xmin xmax xinc
          = ((zero_sample time_unit, zero_sample time_unit,
              zero_sample data_unit),
             [(LOG_ERR, EvalFailed func_def)])) as Hgen.
  { unfold generatePoints. rewrite (try_points_degrades _ _ _ _ _ _ Hin Hfail).
    subst time_unit data_unit.
    destruct (getStandardUnitType E None "dateTime" None).
    destruct (getStandardUnitType E None func_type None).
    reflexivity. }
  split; [exact Hgen |].
  intros line_options agg timeinc s Hft Hfd Hinc.
  unfold fetch_vectors. simpl. rewrite Hft, Hfd, Hinc, Hgen.
  reflexivity.
Qed.

(** C10, as amended: whatever the function type, the range and the
    increment, the start and stop vectors that [generatePoints] returns are
    equal element for element, and as long as the data vector, on the
    fallback path (the path that logs the failure) for every function
    definition, and on the successful path for every function definition
    whose evaluation leaves the lists [start_vec], [stop_vec] and
    [data_vec] as it finds them. *)
Theorem generatePoints_vectors_agree
    (func_type func_def : string) (xmin xmax xinc : Z) :
  leaves_lists_alone E func_def (range_list xmin xmax xinc) \/
  snd (generatePoints E func_type func_def xmin xmax xinc) <> [] ->
  let generated := fst (generatePoints E func_type func_def xmin xmax xinc) in
  let start_vec_t := fst (fst generated) in
  let stop_vec_t := snd (fst generated) in
  let data_vec_t := snd generated in
  value start_vec_t = value stop_vec_t /\
  length (value start_vec_t) = length (value data_vec_t).
Proof.
  intros Hpath. cbv zeta.
  assert (leaves_lists_alone E func_def (range_list xmin xmax xinc) \/
          snd (try_points E func_def xmin xmax xinc) <> []) as Hpath'.
  { destruct Hpath as [Halone | Hlogged]; [left; exact Halone | right].
    revert Hlogged. unfold generatePoints.
    destruct (try_points E func_def xmin xmax xinc) as [vecs logged].
    destruct (getStandardUnitType E None "dateTime" None).
    destruct (getStandardUnitType E None func_type None).
    exact (fun H => H). }
  pose proof (try_points_aligned func_def xmin xmax xinc Hpath') as Hal.
  unfold generatePoints.
  destruct (try_points E func_def xmin xmax xinc) as [vecs logged].
  destruct (getStandardUnitType E None "dateTime" None).
  destruct (getStandardUnitType E None func_type None).
  exact Hal.
Qed.

End GeneratePoints.

(** C10, as stated, fails: the definition [start_vec.append(1) or 2]
    evaluates to 2 at every [x] and appends 1 to [start_vec] each time. Over
    [range(0, 2, 1)] nothing fails and nothing is logged, and
    [generatePoints] returns four start samples, two stop samples and two
    data samples. *)
Lemma generatePoints_vectors_counterexample :
  let E := Station.station false in
  let run :=
    generatePoints E "outTemp" "start_vec.append(1) or 2" 0 2 1 in
  let start_vec_t := fst (fst (fst run)) in
  let stop_vec_t := snd (fst (fst run)) in
  let data_vec_t := snd (fst run) in
  snd run = [] /\
  value start_vec_t = [1; 0; 1; 1]%Q /\
  value stop_vec_t = [0; 1]%Q /\
  value data_vec_t = [2; 2]%Q /\
  ~ (value start_vec_t = value stop_vec_t /\
     length (value start_vec_t) = length (value data_vec_t)).
Proof.
  cbv zeta. repeat split; try reflexivity.
  intros [Heq _]. vm_compute in Heq. discriminate Heq.
Qed.

Lemma generatePoints_vectors_agree_witness :
  let E := Station.station false in
  let generated := fst (generatePoints E "outTemp" "1/x" 1 8 3) in
  value (fst (fst generated)) = value (snd (fst generated)) /\
  length (value (fst (fst generated))) = length (value (snd generated)).
Proof.
  cbv zeta.
  apply (generatePoints_vectors_agree (Station.station false)
           "outTemp" "1/x" 1 8 3).
  left. intros x vecs y vecs' Hin.
  vm_compute in Hin.
  destruct Hin as [<- | [<- | [<- | []]]]; intros [= _ <-]; reflexivity.
Defined.

(** ** Runs of the monad *)

Section Runs.

Variable E : Collaborators.

Lemma bind_run {A B} (m : M E A) (f : A -> M E B) (s : locals E) :
  (a ← m; f a) s
  = match m s with
    | (Ok a, s1, l1) => let '(r, s2, l2) := f a s1 in (r, s2, (l1 ++ l2)%list)
    | (Raise e, s1, l1) => (Raise e, s1, l1)
    end.
Proof. reflexivity. Qed.

Lemma bind_raise {A B} (m : M E A) (f : A -> M E B) (s s1 : locals E) e l1 :
  m s = (Raise e, s1, l1) -> (a ← m; f a) s = (Raise e, s1, l1).
Proof. intros Hm. rewrite bind_run, Hm. reflexivity. Qed.

Lemma bind_inv {A B} (m : M E A) (f : A -> M E B) (s s2 : locals E) b l :
  (a ← m; f a) s = (Ok b, s2, l) ->
  exists a s1 l1 l2,
    m s = (Ok a, s1, l1) /\ f a s1 = (Ok b, s2, l2) /\ l = (l1 ++ l2)%list.
Proof.
  rewrite bind_run. destruct (m s) as [[[a | e] s1] l1]; [| discriminate].
  destruct (f a s1) as [[r s2'] l2] eqn:Hf. intros [= -> -> <-].
  exists a, s1, l1, l2. auto.
Qed.

Lemma lift_inv {A} (r : result A) (s s1 : locals E) a l :
  lift E r s = (Ok a, s1, l) -> r = Ok a /\ s1 = s /\ l = [].
Proof. destruct r; intros [= <- <- <-]; auto. Qed.

Lemma same_outcome_refl {A} (m : M E A) : same_outcome m m.
Proof. intros s. reflexivity. Qed.

Lemma same_outcome_bind {A B} (m1 m2 : M E A) (f1 f2 : A -> M E B) :
  same_outcome m1 m2 ->
  (forall a, same_outcome (f1 a) (f2 a)) ->
  same_outcome (a ← m1; f1 a) (a ← m2; f2 a).
Proof.
  intros Hm Hf s. rewrite !bind_run. specialize (Hm s). unfold outcome in *.
  destruct (m1 s) as [[r1 s1] l1], (m2 s) as [[r2 s2] l2]. simpl in Hm.
  injection Hm as -> ->. destruct r2 as [a | e]; [| reflexivity].
  specialize (Hf a s2).
  destruct (f1 a s2) as [[? ?] ?], (f2 a s2) as [[? ?] ?]. exact Hf.
Qed.

End Runs.

(** ** A line without its aggregate interval *)

Section MissingInterval.

Variable E : Collaborators.
Variable plot_options : gmap string string.
Variables minstamp maxstamp timeinc : Z.

Lemma genLine_lacks_interval (section : LineSection) (aggregate_type : string)
    (plot : PlotOf E) (s : locals E) :
  lacks_interval section aggregate_type ->
  genLine E plot_options minstamp maxstamp timeinc plot section s
  = (Ok plot, s,
     [(LOG_ERR, AggregateIntervalRequired aggregate_type);
      (LOG_ERR,
       LineTypeSkipped
         (default (line_name section) (line_options section !! "data_type")))]).
Proof.
  intros (Hagg & Hne1 & Hne2 & Hne3 & Hint).
  unfold genLine. rewrite bind_run. unfold aggregation.
  rewrite Hagg, Hint. unfold no_aggregation.
  destruct (String.eqb_spec aggregate_type ""); [contradiction |].
  destruct (String.eqb_spec aggregate_type "None"); [contradiction |].
  destruct (String.eqb_spec aggregate_type "none"); [contradiction |].
  reflexivity.
Qed.

Lemma genLines_same_outcome (plot : PlotOf E) (section : LineSection)
    (before after : list LineSection) :
  (forall plot, same_outcome
     (genLine E plot_options minstamp maxstamp timeinc plot section)
     (mret plot)) ->
  same_outcome
    (genLines E plot_options minstamp maxstamp timeinc plot
              (before ++ section :: after))
    (genLines E plot_options minstamp maxstamp timeinc plot (before ++ after)).
Proof.
  intros Hskip. revert plot.
  induction before as [| first before IH]; intros plot; simpl.
  - intros s. rewrite bind_run. specialize (Hskip plot s).
    unfold outcome in *.
    destruct (genLine E plot_options minstamp maxstamp timeinc plot section s)
      as [[r s1] l1].
    simpl in Hskip. injection Hskip as -> ->.
    destruct (genLines E plot_options minstamp maxstamp timeinc plot after s)
      as [[r s2] l2].
    reflexivity.
  - apply same_outcome_bind; [apply same_outcome_refl | exact IH].
Qed.

End MissingInterval.

Section MissingIntervalPass.

Variable E : Collaborators.

(** The two configurations compared are the same tree, with and without
    one line of one plot. *)
Variable section : LineSection.
Variables before after : list LineSection.
Variable name : string.
Variable options : gmap string string.
Variables earlier later : list PlotSection.
Variables earlier_spans later_spans : list (list PlotSection).

Hypothesis skipped :
  forall plot_options minstamp maxstamp timeinc plot,
    same_outcome
      (genLine E plot_options minstamp maxstamp timeinc plot section)
      (mret plot).

Lemma genPlot_same_outcome (gen_ts : option Z) :
  same_outcome
    (genPlot E gen_ts (mkPlotSection name options (before ++ section :: after)))
    (genPlot E gen_ts (mkPlotSection name options (before ++ after))).
Proof.
  unfold genPlot. simpl.
  apply same_outcome_bind; [apply same_outcome_refl | intros plotgen_ts].
  apply same_outcome_bind; [apply same_outcome_refl | intros html_root].
  apply same_outcome_bind; [apply same_outcome_refl | intros ai].
  apply same_outcome_bind; [apply same_outcome_refl | intros skip].
  destruct skip; [apply same_outcome_refl |].
  apply same_outcome_bind; [apply same_outcome_refl | intros fresh].
  destruct fresh; [apply same_outcome_refl |].
  unfold draw_plot.
  apply same_outcome_bind; [apply same_outcome_refl | intros _].
  apply same_outcome_bind; [apply same_outcome_refl | intros [[lo hi] inc]].
  apply same_outcome_bind; [apply same_outcome_refl | intros deco].
  apply same_outcome_bind; [| intros ?; apply same_outcome_refl].
  apply genLines_same_outcome. intros plot. apply skipped.
Qed.

Lemma genSpans_same_outcome (gen_ts : option Z) :
  same_outcome
    (genSpans E gen_ts
       (earlier_spans
        ++ (earlier
            ++ mkPlotSection name options (before ++ section :: after)
            :: later)
        :: later_spans)%list)
    (genSpans E gen_ts
       (earlier_spans
        ++ (earlier ++ mkPlotSection name options (before ++ after) :: later)
        :: later_spans)%list).
Proof.
  induction earlier_spans as [| span spans IH]; simpl.
  - apply same_outcome_bind; [| intros ?; apply same_outcome_refl].
    induction earlier as [| p ps IHp]; simpl.
    + apply same_outcome_bind; [| intros ?; apply same_outcome_refl].
      apply genPlot_same_outcome.
    + apply same_outcome_bind; [apply same_outcome_refl | intros ?; exact IHp].
  - apply same_outcome_bind; [apply same_outcome_refl | intros ?; exact IH].
Qed.

Lemma genImages_same_outcome (gen_ts : option Z) :
  outcome
    (genImages E gen_ts
       (earlier_spans
        ++ (earlier
            ++ mkPlotSection name options (before ++ section :: after)
            :: later)
        :: later_spans)%list)
  = outcome
      (genImages E gen_ts
         (earlier_spans
          ++ (earlier ++ mkPlotSection name options (before ++ after) :: later)
          :: later_spans)%list).
Proof.
  unfold genImages.
  apply (same_outcome_bind E _ _
           (fun _ => report_success E) (fun _ => report_success E)).
  - apply genSpans_same_outcome.
  - intros _ s. reflexivity.
Qed.

End MissingIntervalPass.

(** C7: a line that asks for an aggregate type and gives no aggregate
    interval is logged as an error and skipped, and only that line: the
    plot and the locals are as they were, the remaining lines of the plot
    are processed as if the line were not there, and so is every other
    plot of the pass. *)
Theorem missing_interval_skips_that_line_only
    (E : Collaborators) (section : LineSection) (aggregate_type : string) :
  lacks_interval section aggregate_type ->
  (forall plot_options minstamp maxstamp timeinc plot s,
      genLine E plot_options minstamp maxstamp timeinc plot section s
      = (Ok plot, s,
         [(LOG_ERR, AggregateIntervalRequired aggregate_type);
          (LOG_ERR,
           LineTypeSkipped
             (default (line_name section)
                      (line_options section !! "data_type")))])) /\
  (forall plot_options minstamp maxstamp timeinc plot before after s,
      outcome (genLines E plot_options minstamp maxstamp timeinc plot
                        (before ++ section :: after) s)
      = outcome (genLines E plot_options minstamp maxstamp timeinc plot
                          (before ++ after) s)) /\
  (forall gen_ts name options before after earlier later
          earlier_spans later_spans,
      outcome
        (genImages E gen_ts
           (earlier_spans
            ++ (earlier
                ++ mkPlotSection name options (before ++ section :: after)
                :: later)
            :: later_spans)%list)
      = outcome
          (genImages E gen_ts
             (earlier_spans
              ++ (earlier
                  ++ mkPlotSection name options (before ++ after) :: later)
              :: later_spans)%list)).
Proof.
  intros Hlacks.
  assert (forall plot_options minstamp maxstamp timeinc plot,
             same_outcome
               (genLine E plot_options minstamp maxstamp timeinc plot section)
               (mret plot)) as Hskip.
  { intros plot_options minstamp maxstamp timeinc plot s.
    rewrite (genLine_lacks_interval _ _ _ _ _ _ _ _ _ Hlacks). reflexivity. }
  split; [| split].
  - intros. apply genLine_lacks_interval. exact Hlacks.
  - intros. apply genLines_same_outcome. intros plot'. apply Hskip.
  - intros. apply genImages_same_outcome. exact Hskip.
Qed.

Lemma missing_interval_skips_that_line_only_witness :
  let E := Station.station false in
  genLine E Station.day_options 86400 172800 10800 Station.empty_plot
          Station.outTemp_no_interval Station.nothing
  = (Ok Station.empty_plot, Station.nothing,
     [(LOG_ERR, AggregateIntervalRequired "avg");
      (LOG_ERR, LineTypeSkipped "outTemp")]).
Proof.
  cbv zeta.
  apply (missing_interval_skips_that_line_only (Station.station false)
           Station.outTemp_no_interval "avg").
  unfold lacks_interval.
  repeat split; (reflexivity || discriminate).
Defined.

(** ** The time axis *)

Section TimeAxis.

Variable E : Collaborators.

(** C9: where the plot options give an explicit [x_interval], the scaling
    handed to the plot carries that value as its increment, and its
    [minstamp] and [maxstamp] are those that [scaletime] derives from the
    plot's timestamp and time length, the same as without the override. *)
Theorem explicit_interval_keeps_window
    (plot_options : gmap string string) (plotgen_ts time_length user : Z)
    (s : locals E) :
  time_length_of E plot_options = Ok time_length ->
  to_int E (plot_options !! "x_interval") = Ok (Some user) ->
  let derived := scaletime E (plotgen_ts - time_length) plotgen_ts in
  time_scaling E plot_options plotgen_ts s
  = (Ok (fst (fst derived), snd (fst derived), user), s, []) /\
  forall plot_options',
    time_length_of E plot_options' = Ok time_length ->
    to_int E (plot_options' !! "x_interval") = Ok None ->
    time_scaling E plot_options' plotgen_ts s
    = (Ok (fst (fst derived), snd (fst derived), snd derived), s, []).
Proof.
  intros Hlen Huser derived. split.
  - unfold time_scaling. rewrite bind_run, Hlen. simpl. fold derived.
    destruct derived as [[minstamp maxstamp] timeinc].
    rewrite bind_run, Huser. reflexivity.
  - intros plot_options' Hlen' Hnone.
    unfold time_scaling. rewrite bind_run, Hlen'. simpl. fold derived.
    destruct derived as [[minstamp maxstamp] timeinc].
    rewrite bind_run, Hnone. reflexivity.
Qed.

End TimeAxis.

Lemma explicit_interval_keeps_window_witness :
  let E := Station.station false in
  time_scaling E (<[ "x_interval" := "3600" ]> Station.day_options) 172800
               Station.nothing
  = (Ok (86400, 172800, 3600), Station.nothing, []).
Proof.
  cbv zeta.
  apply (explicit_interval_keeps_window (Station.station false)
           (<[ "x_interval" := "3600" ]> Station.day_options)
           172800 86400 3600 Station.nothing);
    reflexivity.
Defined.

(** ** Drawing a line *)

Section DrawLine.

Variable E : Collaborators.

Lemma read_stop_vec_t_inv (s s1 : locals E) (v : ValueTuple) l :
  read_stop_vec_t E s = (Ok v, s1, l) ->
  stop_vec_t E s = Some v /\ s1 = s /\ l = [].
Proof.
  unfold read_stop_vec_t. destruct (stop_vec_t E s); intros [= <- <- <-]; auto.
Qed.

Lemma conversions_inv (start_vec_t data_vec_t : ValueTuple) (s s1 : locals E)
    new_start new_stop new_data l :
  conversions E start_vec_t data_vec_t s
  = (Ok (new_start, new_stop, new_data), s1, l) ->
  exists stop,
    stop_vec_t E s = Some stop /\ convert E start_vec_t = Ok new_start /\
    convert E stop = Ok new_stop /\ convert E data_vec_t = Ok new_data /\
    s1 = s /\ l = [].
Proof.
  unfold conversions. intros H.
  apply bind_inv in H as (ns & s2 & l1 & l2 & H1 & H & ->).
  apply lift_inv in H1 as (Hstart & -> & ->).
  apply bind_inv in H as (stop & s3 & l3 & l4 & H2 & H & ->).
  apply read_stop_vec_t_inv in H2 as (Hstop & -> & ->).
  apply bind_inv in H as (nt & s4 & l5 & l6 & H3 & H & ->).
  apply lift_inv in H3 as (Hconv & -> & ->).
  apply bind_inv in H as (nd & s5 & l7 & l8 & H4 & H & ->).
  apply lift_inv in H4 as (Hdata & -> & ->).
  injection H as <- <- <- <- <-.
  exists stop. repeat split; assumption || reflexivity.
Qed.

Lemma optional_color_inv (c : option string) (s s1 : locals E) bgr l :
  optional_color E c s = (Ok bgr, s1, l) -> s1 = s /\ l = [].
Proof.
  destruct c as [c |]; simpl; [| intros [= <- <- <-]; auto].
  intros H. apply bind_inv in H as (z & s2 & l1 & l2 & H1 & H & ->).
  apply lift_inv in H1 as (_ & -> & ->).
  injection H as <- <- <-. auto.
Qed.

(** What a successful [draw_line] has done: it converted the three vectors,
    [stop_vec_t] read from its local, and appended one line that holds the
    result of [special_treatments]. *)
Lemma draw_line_inv (plot_options line_options : gmap string string)
    (var_type type_of_plot : string) (start_vec_t data_vec_t : ValueTuple)
    (plot plot' : PlotOf E) (s s' : locals E) (l : list log_entry) :
  draw_line E plot_options line_options var_type type_of_plot
            start_vec_t data_vec_t plot s = (Ok plot', s', l) ->
  exists stop new_start new_stop new_data interval_vec rotate gap line,
    stop_vec_t E s = Some stop /\
    convert E start_vec_t = Ok new_start /\
    convert E stop = Ok new_stop /\
    convert E data_vec_t = Ok new_data /\
    special_treatments E line_options type_of_plot new_start new_stop s
    = (Ok (interval_vec, rotate, gap), s, l) /\
    s' = s /\
    x_scaling plot' = x_scaling plot /\
    line_list plot' = (line_list plot ++ [line])%list /\
    x line = value new_stop /\ y line = value new_data /\
    plot_type line = type_of_plot /\
    bar_width line = interval_vec /\
    vector_rotate line = rotate /\
    gap_fraction line = gap.
Proof.
  unfold draw_line. intros H.
  apply bind_inv in H as ([[ns nt] nd] & s1 & l1 & l2 & Hconv & H & ->).
  apply conversions_inv in Hconv
    as (stop & Hstop & Hns & Hnt & Hnd & -> & ->).
  apply bind_inv in H as (lbl & s2 & l3 & l4 & H1 & H & ->).
  apply lift_inv in H1 as (_ & -> & ->).
  apply bind_inv in H as (c & s3 & l5 & l6 & H1 & H & ->).
  apply optional_color_inv in H1 as (-> & ->).
  apply bind_inv in H as (fc & s4 & l7 & l8 & H1 & H & ->).
  apply optional_color_inv in H1 as (-> & ->).
  apply bind_inv in H as (w & s5 & l9 & l10 & H1 & H & ->).
  apply lift_inv in H1 as (_ & -> & ->).
  apply bind_inv in H as ([[iv vr] gf] & s6 & l11 & l12 & Hsp & H & ->).
  apply bind_inv in H as (sty & s7 & l13 & l14 & H1 & H & ->).
  apply lift_inv in H1 as (_ & -> & ->).
  injection H as <- <- <-.
  assert (s6 = s) as ->.
  { revert Hsp. unfold special_treatments.
    destruct (String.eqb type_of_plot "vector").
    - destruct (line_options !! "vector_rotate") as [str |].
      + intros H. apply bind_inv in H as (r & s8 & ? & ? & H1 & H & _).
        apply lift_inv in H1 as (_ & -> & _). injection H as _ _ _ <-.
        reflexivity.
      + intros [= _ _ _ <-]. reflexivity.
    - intros H. apply bind_inv in H as (g & s8 & ? & ? & H1 & H & _).
      assert (s8 = s) as ->.
      { destruct (String.eqb type_of_plot "bar");
          [injection H1 as _ <- _; reflexivity |].
        destruct (String.eqb type_of_plot "line");
          [| injection H1 as _ <- _; reflexivity].
        apply lift_inv in H1 as (_ & -> & _). reflexivity. }
      destruct g as [g |]; [| injection H as _ _ _ <-; reflexivity].
      destruct (in_unit_interval g); injection H as _ _ _ <-; reflexivity. }
  eexists stop, ns, nt, nd, iv, vr, gf, _.
  simpl. rewrite !app_nil_r. repeat split; try eassumption; reflexivity.
Qed.

End DrawLine.

(** ** Bar widths *)

Lemma interval_vector_length (new_start new_stop : ValueTuple) :
  length (interval_vector new_start new_stop)
  = Nat.min (length (value new_start)) (length (value new_stop)).
Proof. unfold interval_vector. rewrite length_map. apply length_combine. Qed.

Lemma interval_vector_nth (new_start new_stop : ValueTuple) (i : nat) :
  (i < length (interval_vector new_start new_stop))%nat ->
  nth i (interval_vector new_start new_stop) 0%Q
  = (nth i (value new_stop) 0 - nth i (value new_start) 0)%Q.
Proof.
  unfold interval_vector.
  generalize (value new_start) as starts, (value new_stop) as stops.
  intros starts. revert i.
  induction starts as [| a starts IH]; intros i stops Hi; simpl in *; [lia |].
  destruct stops as [| b stops]; simpl in *; [lia |].
  destruct i as [| i]; [reflexivity |].
  apply IH. lia.
Qed.

(** C4: the line drawn for plot type [bar] carries a [bar_width] vector whose
    entry at every index is the stop sample minus the start sample at that
    index, both taken from the vectors the converter returned. *)
Theorem bar_width_is_stop_minus_start
    (E : Collaborators) (plot_options line_options : gmap string string)
    (var_type : string) (start_vec_t data_vec_t : ValueTuple)
    (plot plot' : PlotOf E) (s s' : locals E) (l : list log_entry) :
  draw_line E plot_options line_options var_type "bar"
            start_vec_t data_vec_t plot s = (Ok plot', s', l) ->
  exists stop new_start new_stop line widths,
    stop_vec_t E s = Some stop /\
    convert E start_vec_t = Ok new_start /\
    convert E stop = Ok new_stop /\
    line_list plot' = (line_list plot ++ [line])%list /\
    plot_type line = "bar" /\
    bar_width line = Some widths /\
    length widths
    = Nat.min (length (value new_start)) (length (value new_stop)) /\
    forall i, (i < length widths)%nat ->
      nth i widths 0%Q
      = (nth i (value new_stop) 0 - nth i (value new_start) 0)%Q.
Proof.
  intros Hdraw.
  apply draw_line_inv in Hdraw
    as (stop & ns & nt & nd & iv & vr & gf & line & Hstop & Hns & Hnt & _
        & Hsp & _ & _ & Hlines & _ & _ & Htype & Hbw & _).
  unfold special_treatments in Hsp. simpl in Hsp.
  injection Hsp as <- _ _ _.
  exists stop, ns, nt, line, (interval_vector ns nt).
  repeat split; auto.
  - apply interval_vector_length.
  - apply interval_vector_nth.
Qed.

Lemma bar_width_is_stop_minus_start_witness :
  let E := Station.station false in
  let start := Station.seconds [3600; 7200] in
  let s := mkLocals E (Some (Station.seconds [7200; 10800])) 0 [] in
  exists stop new_start new_stop line widths,
    stop_vec_t E s = Some stop /\
    convert E start = Ok new_start /\
    convert E stop = Ok new_stop /\
    line_list Station.bar_plot = [line] /\
    plot_type line = "bar" /\
    bar_width line = Some widths /\
    length widths
    = Nat.min (length (value new_start)) (length (value new_stop)) /\
    forall i, (i < length widths)%nat ->
      nth i widths 0%Q
      = (nth i (value new_stop) 0 - nth i (value new_start) 0)%Q.
Proof.
  cbv zeta.
  apply (bar_width_is_stop_minus_start (Station.station false)
           Station.day_options (line_options Station.outTemp_bar) "outTemp"
           (Station.seconds [3600; 7200]) (Station.degrees [20; 21]%Q)
           Station.empty_plot Station.bar_plot
           (mkLocals (Station.station false)
                     (Some (Station.seconds [7200; 10800])) 0 [])
           (mkLocals (Station.station false)
                     (Some (Station.seconds [7200; 10800])) 0 [])
           []).
  reflexivity.
Defined.

(** ** Gap fractions *)

Lemma Qltb_spec (a b : Q) : Qltb a b = true <-> (a < b)%Q.
Proof.
  unfold Qltb. rewrite negb_true_iff, <- not_true_iff_false, Qle_bool_iff.
  split; [apply Qnot_le_lt | apply Qlt_not_le].
Qed.

Lemma in_unit_interval_spec (g : Q) :
  in_unit_interval g = true <-> (0 < g /\ g < 1)%Q.
Proof.
  unfold in_unit_interval. rewrite andb_true_iff, !Qltb_spec. reflexivity.
Qed.

Lemma special_treatments_gap (E : Collaborators)
    (line_options : gmap string string) (g : Q)
    (new_start new_stop : ValueTuple) (s : locals E) :
  to_float E (line_options !! "line_gap_fraction") = Ok (Some g) ->
  special_treatments E line_options "line" new_start new_stop s
  = if in_unit_interval g then (Ok (None, None, Some g), s, [])
    else (Ok (None, None, None), s, [(LOG_ERR, GapFractionIgnored g)]).
Proof.
  intros Hg. unfold special_treatments. simpl. rewrite bind_run, Hg. simpl.
  destruct (in_unit_interval g); reflexivity.
Qed.

(** C6: for a line of plot type [line] whose [line_gap_fraction] reads as a
    number outside the open interval (0,1), the value is logged and dropped:
    the step returns without raising, and the line that is drawn has no gap
    fraction, neither the value nor a bound of the interval. A number inside
    the interval is kept as it is. *)
Theorem gap_fraction_outside_unit_interval_is_dropped
    (E : Collaborators) (line_options : gmap string string) (g : Q) :
  to_float E (line_options !! "line_gap_fraction") = Ok (Some g) ->
  (~ (0 < g /\ g < 1)%Q ->
   (forall new_start new_stop s,
       special_treatments E line_options "line" new_start new_stop s
       = (Ok (None, None, None), s, [(LOG_ERR, GapFractionIgnored g)])) /\
   (forall plot_options var_type start_vec_t data_vec_t plot plot' s s' l,
       draw_line E plot_options line_options var_type "line"
                 start_vec_t data_vec_t plot s = (Ok plot', s', l) ->
       exists line,
         line_list plot' = (line_list plot ++ [line])%list /\
         gap_fraction line = None /\
         l = [(LOG_ERR, GapFractionIgnored g)])) /\
  ((0 < g /\ g < 1)%Q ->
   (forall new_start new_stop s,
       special_treatments E line_options "line" new_start new_stop s
       = (Ok (None, None, Some g), s, [])) /\
   (forall plot_options var_type start_vec_t data_vec_t plot plot' s s' l,
       draw_line E plot_options line_options var_type "line"
                 start_vec_t data_vec_t plot s = (Ok plot', s', l) ->
       exists line,
         line_list plot' = (line_list plot ++ [line])%list /\
         gap_fraction line = Some g /\
         l = [])).
Proof.
  intros Hg. split; intros Hrange.
  - assert (in_unit_interval g = false) as Hout.
    { apply not_true_iff_false. rewrite in_unit_interval_spec. exact Hrange. }
    split.
    + intros. rewrite (special_treatments_gap _ _ _ _ _ _ Hg), Hout.
      reflexivity.
    + intros * Hdraw.
      apply draw_line_inv in Hdraw
        as (stop & ns & nt & nd & iv & vr & gf & line & _ & _ & _ & _
            & Hsp & _ & _ & Hlines & _ & _ & _ & _ & _ & Hgap).
      rewrite (special_treatments_gap _ _ _ _ _ _ Hg), Hout in Hsp.
      injection Hsp as <- <- <- <-. exists line. auto.
  - apply in_unit_interval_spec in Hrange as Hin.
    split.
    + intros. rewrite (special_treatments_gap _ _ _ _ _ _ Hg), Hin.
      reflexivity.
    + intros * Hdraw.
      apply draw_line_inv in Hdraw
        as (stop & ns & nt & nd & iv & vr & gf & line & _ & _ & _ & _
            & Hsp & _ & _ & Hlines & _ & _ & _ & _ & _ & Hgap).
      rewrite (special_treatments_gap _ _ _ _ _ _ Hg), Hin in Hsp.
      injection Hsp as <- <- <- <-. exists line. auto.
Qed.

Lemma gap_fraction_outside_unit_interval_is_dropped_witness :
  let E := Station.station false in
  special_treatments E (line_options Station.outTemp_gap) "line"
    (Station.seconds [3600; 7200]) (Station.seconds [7200; 10800])
    Station.nothing
  = (Ok (None, None, None), Station.nothing,
     [(LOG_ERR, GapFractionIgnored (3 # 2))]) /\
  exists line,
    line_list Station.gap_plot = [line] /\
    gap_fraction line = None /\
    [(LOG_ERR, GapFractionIgnored (3 # 2))]
    = [(LOG_ERR, GapFractionIgnored (3 # 2))].
Proof.
  cbv zeta.
  assert (~ (0 < 3 # 2 /\ 3 # 2 < 1)%Q) as Hout.
  { intros [_ H]. vm_compute in H. discriminate H. }
  destruct (gap_fraction_outside_unit_interval_is_dropped
              (Station.station false) (line_options Station.outTemp_gap)
              (3 # 2) eq_refl) as [Hdropped _].
  destruct (Hdropped Hout) as [Hstep Hline].
  split.
  - apply Hstep.
  - apply (Hline Station.day_options "outTemp"
             (Station.seconds [3600; 7200]) (Station.degrees [20; 21]%Q)
             Station.empty_plot Station.gap_plot
             (mkLocals (Station.station false)
                       (Some (Station.seconds [7200; 10800])) 0 [])
             (mkLocals (Station.station false)
                       (Some (Station.seconds [7200; 10800])) 0 [])).
    reflexivity.
Defined.

(** ** The length assertion *)

Section LengthAssertion.

Variable E : Collaborators.

Lemma fetch_vectors_archive (line_options : gmap string string)
    (var_type binding : string) (agg : option (string * Z))
    (minstamp maxstamp timeinc : Z) (start stop data : ValueTuple)
    (s : locals E) :
  String.eqb var_type "function" = false ->
  line_options !! "data_binding" = Some binding ->
  getSqlVectors E binding (minstamp, maxstamp) var_type
                (fst <$> agg) (snd <$> agg) = Ok (start, stop, data) ->
  fetch_vectors E line_options var_type agg minstamp maxstamp timeinc s
  = (Ok (Some (start, data)), mkLocals E (Some stop) (ngen E s) (written E s),
     []).
Proof.
  intros Hvar Hbinding Hsql. unfold fetch_vectors. rewrite Hvar.
  rewrite bind_run. unfold getitem. rewrite Hbinding. simpl.
  rewrite bind_run, Hsql. reflexivity.
Qed.


(** With [weewx.debug] set the assertion reads [stop_vec_t] and compares
    the lengths of two value tuples, which are 3 and 3. *)
Lemma debug_assertion_bound (start stop : ValueTuple) (s : locals E) :
  stop_vec_t E s = Some stop ->
  debug_assertion E start s = (Ok tt, s, []).
Proof.
  intros Hstop. unfold debug_assertion. destruct (debug E); [| reflexivity].
  rewrite bind_run. unfold read_stop_vec_t. rewrite Hstop. reflexivity.
Qed.

Lemma aggregation_settled (line_options : gmap string string)
    (agg : option (string * Z)) (var_type : string) (s : locals E) :
  aggregates_as E line_options agg ->
  aggregation E line_options var_type s = (Ok (Some agg), s, []).
Proof.
  unfold aggregates_as, aggregation. destruct agg as [[a ai] |].
  - intros (-> & Hsome & str & -> & Hint). rewrite Hsome.
    rewrite bind_run, Hint. reflexivity.
  - intros Hnone. destruct (line_options !! "aggregate_type"); [| reflexivity].
    rewrite Hnone. reflexivity.
Qed.

End LengthAssertion.

(** ** The midpoint of the aggregate interval *)

Section Midpoint.

Variable E : Collaborators.

Lemma wants_midpoint_spec (aggregate_type : string) (aggregate_interval : Z)
    (plot_type : string) :
  wants_midpoint (Some (aggregate_type, aggregate_interval)) plot_type = true
  <-> lower aggregate_type ∈ midpoint_types /\ plot_type <> "bar".
Proof.
  unfold wants_midpoint.
  rewrite !andb_true_iff, !negb_true_iff, bool_decide_eq_true.
  rewrite !String.eqb_neq. split; [tauto |].
  intros [Hin Hbar]. repeat split; auto.
  intros ->. apply list_elem_of_In in Hin. simpl in Hin.
  intuition discriminate.
Qed.

Lemma shift_back_shifted (aggregate_interval : Z) (v : ValueTuple) :
  shifted_by (- (inject_Z aggregate_interval / 2)) (value v)
             (value (shift_back aggregate_interval v)).
Proof.
  unfold shifted_by, shift_back. simpl. split; [apply length_map |].
  intros i Hi.
  rewrite (nth_indep _ 0%Q ((0 - inject_Z aggregate_interval / 2)%Q))
    by (rewrite length_map; exact Hi).
  rewrite (map_nth (fun x => (x - inject_Z aggregate_interval / 2)%Q)).
  reflexivity.
Qed.

Lemma align_run (agg : option (string * Z)) (plot_type : string)
    (start stop : ValueTuple) (s : locals E) :
  stop_vec_t E s = Some stop ->
  align E agg plot_type start s
  = match agg with
    | Some (_, aggregate_interval) =>
        if wants_midpoint agg plot_type then
          (Ok (shift_back aggregate_interval start),
           mkLocals E (Some (shift_back aggregate_interval stop))
                    (ngen E s) (written E s), [])
        else (Ok start, s, [])
    | None => (Ok start, s, [])
    end.
Proof.
  intros Hstop. unfold align. destruct agg as [[a ai] |]; [| reflexivity].
  destruct (wants_midpoint (Some (a, ai)) plot_type); [| reflexivity].
  rewrite bind_run. unfold read_stop_vec_t. rewrite Hstop. reflexivity.
Qed.

Lemma line_vectors_archive (line_options : gmap string string)
    (var_type binding : string) (agg : option (string * Z))
    (plot_type : string) (minstamp maxstamp timeinc : Z)
    (start stop data : ValueTuple) (s : locals E) :
  var_type <> "function" ->
  line_options !! "data_binding" = Some binding ->
  getSqlVectors E binding (minstamp, maxstamp) var_type
                (fst <$> agg) (snd <$> agg) = Ok (start, stop, data) ->
  line_vectors E line_options var_type agg plot_type
               minstamp maxstamp timeinc s
  = if wants_midpoint agg plot_type then
      match agg with
      | Some (_, aggregate_interval) =>
          (Ok (Some (shift_back aggregate_interval start, data)),
           mkLocals E (Some (shift_back aggregate_interval stop))
                    (ngen E s) (written E s), [])
      | None => (Ok (Some (start, data)),
                 mkLocals E (Some stop) (ngen E s) (written E s), [])
      end
    else (Ok (Some (start, data)),
          mkLocals E (Some stop) (ngen E s) (written E s), []).
Proof.
  intros Hvar Hbinding Hsql.
  set (s1 := mkLocals E (Some stop) (ngen E s) (written E s)).
  assert (debug_assertion E start s1 = (Ok tt, s1, [])) as Hassert
    by (apply (debug_assertion_bound _ _ stop); reflexivity).
  unfold line_vectors. rewrite bind_run.
  rewrite (fetch_vectors_archive _ _ _ binding _ _ _ _ start stop data);
    [| apply String.eqb_neq; exact Hvar | exact Hbinding | exact Hsql].
  fold s1. rewrite bind_run, Hassert. rewrite bind_run.
  rewrite (align_run agg plot_type start stop s1 eq_refl).
  destruct agg as [[a ai] |]; [| reflexivity].
  destruct (wants_midpoint (Some (a, ai)) plot_type); reflexivity.
Qed.

(** For a line read from the archive the vectors that go on to conversion
    are those the archive returned, each sample moved back by half the
    aggregate interval when the aggregate type is one of avg, max and min
    whatever its case and the plot type is not [bar], and untouched
    otherwise. *)
Lemma archive_line_midpoint_shift (line_options : gmap string string)
    (var_type binding : string) (agg : option (string * Z))
    (plot_type : string) (minstamp maxstamp timeinc : Z)
    (start stop data : ValueTuple) (s : locals E) :
  var_type <> "function" ->
  line_options !! "data_binding" = Some binding ->
  getSqlVectors E binding (minstamp, maxstamp) var_type
                (fst <$> agg) (snd <$> agg) = Ok (start, stop, data) ->
  exists start' stop',
    line_vectors E line_options var_type agg plot_type
                 minstamp maxstamp timeinc s
    = (Ok (Some (start', data)),
       mkLocals E (Some stop') (ngen E s) (written E s), []) /\
    (forall aggregate_type aggregate_interval,
        agg = Some (aggregate_type, aggregate_interval) ->
        lower aggregate_type ∈ midpoint_types ->
        plot_type <> "bar" ->
        shifted_by (- (inject_Z aggregate_interval / 2))
                   (value start) (value start') /\
        shifted_by (- (inject_Z aggregate_interval / 2))
                   (value stop) (value stop')) /\
    (plot_type = "bar" \/
     (forall aggregate_type aggregate_interval,
         agg = Some (aggregate_type, aggregate_interval) ->
         lower aggregate_type ∉ midpoint_types) ->
     start' = start /\ stop' = stop).
Proof.
  intros Hvar Hbinding Hsql.
  rewrite (line_vectors_archive _ _ binding _ _ _ _ _ start stop data)
    by assumption.
  destruct agg as [[a ai] |].
  - destruct (wants_midpoint (Some (a, ai)) plot_type) eqn:Hwants.
    + exists (shift_back ai start), (shift_back ai stop).
      split; [reflexivity |]. split.
      * intros a' ai' [= <- <-] _ _. split; apply shift_back_shifted.
      * apply wants_midpoint_spec in Hwants as [Hin Hbar].
        intros [Hbar' | Hnot]; [contradiction |].
        destruct (Hnot a ai eq_refl Hin).
    + exists start, stop. split; [reflexivity |]. split; [| auto].
      intros a' ai' [= <- <-] Hin Hbar.
      assert (wants_midpoint (Some (a, ai)) plot_type = true) as Hyes
        by (apply wants_midpoint_spec; auto).
      congruence.
  - exists start, stop. split; [reflexivity |].
    split; [intros ? ? [=] | auto].
Qed.


(** A line read from the archive is drawn from the vectors the archive
    returned, moved back by half the interval where the test of line 191
    holds, with the stop vector left in its local. *)
Lemma genLine_archive (plot_options : gmap string string)
    (minstamp maxstamp timeinc : Z) (plot : PlotOf E) (section : LineSection)
    (binding : string) (agg : option (string * Z))
    (start stop data : ValueTuple) (s : locals E) :
  let line_options := line_options section in
  let var_type := default (line_name section) (line_options !! "data_type") in
  let plot_type := default "line" (line_options !! "plot_type") in
  var_type <> "function" ->
  aggregates_as E line_options agg ->
  line_options !! "data_binding" = Some binding ->
  getSqlVectors E binding (minstamp, maxstamp) var_type
                (fst <$> agg) (snd <$> agg) = Ok (start, stop, data) ->
  genLine E plot_options minstamp maxstamp timeinc plot section s
  = if wants_midpoint agg plot_type then
      draw_line E plot_options line_options var_type plot_type
        (shift_back (default 0 (snd <$> agg)) start) data plot
        (mkLocals E (Some (shift_back (default 0 (snd <$> agg)) stop))
                  (ngen E s) (written E s))
    else
      draw_line E plot_options line_options var_type plot_type
        start data plot (mkLocals E (Some stop) (ngen E s) (written E s)).
Proof.
  intros line_options var_type plot_type Hvar Hagg Hbinding Hsql.
  unfold genLine. fold line_options var_type plot_type.
  rewrite bind_run, (aggregation_settled _ _ _ _ _ Hagg).
  rewrite bind_run.
  rewrite (line_vectors_archive _ _ binding _ _ _ _ _ start stop data)
    by assumption.
  destruct agg as [[a ai] |];
    [destruct (wants_midpoint (Some (a, ai)) plot_type) |];
    cbn [wants_midpoint default from_option id snd fmap option_fmap
         option_map];
    match goal with |- context [draw_line ?a ?b ?c ?d ?e ?f ?g ?h ?i] =>
      destruct (draw_line a b c d e f g h i) as [[r s2] l2]
    end; reflexivity.
Qed.

End Midpoint.

(** ** Vectors of unequal length *)





(** C3 where the code departs from it: a line of type [function] with
    aggregate type [avg]. [generatePoints] returns its stop vector into
    [end_vec_t]; the shift reads [stop_vec_t]. As the first line of a pass
    that local is unbound and the line raises. After a line read from the
    archive, the local still holds that line's stop vector, already moved
    back once: it is moved back again and goes on to conversion in place of
    the stop vector that [generatePoints] returned. *)
Theorem function_line_shifts_a_stale_stop_vector :
  let E := Station.station false in
  let archive_stop := Station.seconds [7200; 10800] in
  let generated_stop :=
    snd (fst (fst (generatePoints E "outTemp" "x" 86400 172800 (10800 / 50))))
  in
  genLine E Station.day_options 86400 172800 10800 Station.empty_plot
          Station.ramp_avg Station.nothing
  = (Raise (UnboundLocalError "stop_vec_t"), Station.nothing, []) /\
  stop_vec_t E
    (snd (fst (genLines E Station.day_options 86400 172800 10800
                 Station.empty_plot [Station.outTemp_avg; Station.ramp_avg]
                 Station.nothing)))
  = Some (shift_back 3600 (shift_back 3600 archive_stop)) /\
  length (value generated_stop) = 400%nat /\
  length (value (shift_back 3600 (shift_back 3600 archive_stop))) = 2%nat.
Proof.
  cbv zeta. repeat split; reflexivity.
Qed.

(** * Further properties of the code *)

(** ** [skipThisPlot] at large *)

Section SkipDecisionAtLarge.

Variable E : Collaborators.

(** X1: for a positive aggregate interval, [skipThisPlot] answers true
    exactly when the image exists, is younger than one interval at the
    target timestamp, and the timestamp lies, by the local time
    [fromtimestamp] gives it, two seconds or more past the last aggregation
    boundary: the boundary itself and the second after it are regenerated,
    the second before it is not. It raises exactly when the image exists
    and is that young and [fromtimestamp] raises, and then with the
    exception of [fromtimestamp]. It answers false exactly when the image
    is missing, or is one interval old or older, or the timestamp lies less
    than two seconds past a boundary. *)
Theorem skipThisPlot_skips_exactly
    (time_ts ai : Z) (img_file : string) :
  0 < ai ->
  (skipThisPlot E time_ts (Some ai) img_file = Ok true <->
   exists mtime offset,
     st_mtime E img_file = Some mtime /\
     time_ts - mtime < ai /\
     seconds_of_day E time_ts = Ok offset /\
     2 <= offset mod ai) /\
  (forall e,
      skipThisPlot E time_ts (Some ai) img_file = Raise e <->
      exists mtime,
        st_mtime E img_file = Some mtime /\
        time_ts - mtime < ai /\
        seconds_of_day E time_ts = Raise e) /\
  (skipThisPlot E time_ts (Some ai) img_file = Ok false <->
   st_mtime E img_file = None \/
   exists mtime,
     st_mtime E img_file = Some mtime /\
     (ai <= time_ts - mtime \/
      exists offset,
        seconds_of_day E time_ts = Ok offset /\ offset mod ai < 2)).
Proof.
  intros Hpos. unfold skipThisPlot.
  destruct (st_mtime E img_file) as [mtime |].
  - destruct (Z.leb_spec ai (time_ts - mtime)) as [Hold | Hfresh].
    + split; [| split].
      * split; [discriminate |]. intros (m & o & [= <-] & Hlt & _). lia.
      * intros e. split; [discriminate |]. intros (m & [= <-] & Hlt & _). lia.
      * split; [| reflexivity].
        intros _. right. exists mtime. split; [reflexivity | left; exact Hold].
    + destruct (seconds_of_day E time_ts) as [offset | e0].
      * destruct (Z.eqb_spec ai 0) as [-> | _]; [lia |].
        pose proof (Z.mod_pos_bound offset ai Hpos) as Hmod.
        rewrite Z.abs_eq by lia. split; [| split].
        -- split.
           ++ intros [= Hlt]. apply Z.ltb_lt in Hlt. exists mtime, offset.
              repeat split; [exact Hfresh | lia].
           ++ intros (m & o & [= <-] & _ & [= <-] & Hoff).
              f_equal. apply Z.ltb_lt. lia.
        -- intros e. split; [discriminate |].
           intros (m & _ & _ & Hraise). discriminate Hraise.
        -- split.
           ++ intros [= Hge]. apply Z.ltb_ge in Hge. right. exists mtime.
              split; [reflexivity |]. right. exists offset.
              split; [reflexivity | lia].
           ++ intros [[=] | (m & [= <-] & [Hold | (o & [= <-] & Hlt)])];
                [lia |].
              f_equal. apply Z.ltb_ge. lia.
      * split; [| split].
        -- split; [discriminate |].
           intros (m & o & _ & _ & Hok & _). discriminate Hok.
        -- intros e. split.
           ++ intros [= <-]. exists mtime. auto.
           ++ intros (m & _ & _ & [= <-]). reflexivity.
        -- split; [discriminate |].
           intros [[=] | (m & [= <-] & [Hold | (o & Hok & _)])];
             [lia | discriminate Hok].
  - split; [| split].
    + split; [discriminate |]. intros (m & o & [=] & _).
    + intros e. split; [discriminate |]. intros (m & [=] & _).
    + split; [left; reflexivity | reflexivity].
Qed.

(** X2: with an aggregate interval of zero the modulo of line 385 is
    reached only when the image carries a modification time later than the
    target timestamp. [skipThisPlot] then raises: the exception of
    [fromtimestamp] when the timestamp lies outside the calendar,
    [ZeroDivisionError] otherwise. In every other case with a zero interval
    the early returns answer false. *)
Theorem skipThisPlot_zero_interval (time_ts : Z) (img_file : string) :
  (forall e,
      skipThisPlot E time_ts (Some 0) img_file = Raise e <->
      exists mtime,
        st_mtime E img_file = Some mtime /\ time_ts < mtime /\
        (seconds_of_day E time_ts = Raise e \/
         (exists offset, seconds_of_day E time_ts = Ok offset) /\
         e = ZeroDivisionError)) /\
  (st_mtime E img_file = None \/
   (exists mtime, st_mtime E img_file = Some mtime /\ mtime <= time_ts) ->
   skipThisPlot E time_ts (Some 0) img_file = Ok false) /\
  skipThisPlot E time_ts (Some 0) img_file <> Ok true.
Proof.
  unfold skipThisPlot. destruct (st_mtime E img_file) as [mtime |].
  - destruct (Z.leb_spec 0 (time_ts - mtime)) as [Hle | Hlt]; simpl.
    + split; [| split; [reflexivity | discriminate]].
      intros e. split; [discriminate |].
      intros (m & [= <-] & Hnew & _). lia.
    + destruct (seconds_of_day E time_ts) as [offset | e0];
        (split; [| split; [| discriminate]]).
      * intros e. split.
        -- intros [= <-]. exists mtime.
           split; [reflexivity | split; [lia | right; eauto]].
        -- intros (m & _ & _ & [Hraise | [_ ->]]);
             [discriminate Hraise | reflexivity].
      * intros [[=] | (m & [= <-] & Hold)]. lia.
      * intros e. split.
        -- intros [= <-]. exists mtime.
           split; [reflexivity | split; [lia | left; reflexivity]].
        -- intros (m & _ & _ & [[= <-] | [[o Hok] _]]);
             [reflexivity | discriminate Hok].
      * intros [[=] | (m & [= <-] & Hold)]. lia.
  - split; [| split; [reflexivity | discriminate]].
    intros e. split; [discriminate |]. intros (m & [=] & _).
Qed.

End SkipDecisionAtLarge.

Lemma skipThisPlot_skips_exactly_witness :
  let E := Station.station false in
  let img_file := "/home/weewx/public_html/daytemp.png" in
  skipThisPlot E 172802 (Some 3600) img_file = Ok true /\
  skipThisPlot E 172801 (Some 3600) img_file = Ok false.
Proof.
  cbv zeta. split.
  - apply (skipThisPlot_skips_exactly (Station.station false) 172802 3600);
      [lia |].
    exists 172700, 2. repeat split; (reflexivity || lia).
  - apply (skipThisPlot_skips_exactly (Station.station false) 172801 3600);
      [lia |].
    right. exists 172700. split; [reflexivity |]. right. exists 1.
    split; [reflexivity | reflexivity].
Defined.

(** ** [generatePoints] at large *)

Section GeneratePointsAtLarge.

Variable E : Collaborators.

Lemma points_loop_succeeds (func_def : string) (f : Z -> Q) (xs : list Z) :
  (forall x vecs, In x xs ->
      eval_float E (replace_x func_def (format_d x)) vecs = Ok (f x, vecs)) ->
  forall acc,
    points_loop E func_def xs acc
    = Ok (mkVecs (start_vec acc ++ List.map inject_Z xs)
                 (stop_vec acc ++ List.map inject_Z xs)
                 (data_vec acc ++ List.map f xs)).
Proof.
  induction xs as [| x xs IH]; intros Heval acc.
  - simpl. rewrite !app_nil_r. destruct acc; reflexivity.
  - simpl. rewrite (Heval x acc (or_introl eq_refl)).
    rewrite IH by (intros x' vecs Hin; apply Heval; right; exact Hin).
    simpl. rewrite <- !app_assoc. reflexivity.
Qed.

(** X3: when the step is not zero and the expression, at every [x] of
    [range(xmin, xmax, xinc)], evaluates to a value [f x] that does not
    depend on the lists [start_vec], [stop_vec] and [data_vec] and leaves
    them as they are, [generatePoints] logs nothing and returns, as start
    and as stop vector alike, the numbers of the range in order, and as
    data vector the values [f x] at them. *)
Theorem generatePoints_samples_the_range
    (func_type func_def : string) (xmin xmax xinc : Z) (f : Z -> Q) :
  xinc <> 0 ->
  (forall x vecs, In x (range_list xmin xmax xinc) ->
      eval_float E (replace_x func_def (format_d x)) vecs = Ok (f x, vecs)) ->
  let time_unit := getStandardUnitType E None "dateTime" None in
  let data_unit := getStandardUnitType E None func_type None in
  let xs := List.map inject_Z (range_list xmin xmax xinc) in
  let ys := List.map f (range_list xmin xmax xinc) in
  generatePoints E func_type func_def xmin xmax xinc
  = ((mkValueTuple xs (fst time_unit) (snd time_unit),
      mkValueTuple xs (fst time_unit) (snd time_unit),
      mkValueTuple ys (fst data_unit) (snd data_unit)), []).
Proof.
  intros Hstep Heval time_unit data_unit xs ys.
  unfold generatePoints, try_points, py_range.
  destruct (Z.eqb_spec xinc 0) as [Hz | _]; [contradiction |].
  rewrite (points_loop_succeeds func_def f _ Heval). simpl.
  subst time_unit data_unit.
  destruct (getStandardUnitType E None "dateTime" None).
  destruct (getStandardUnitType E None func_type None).
  reflexivity.
Qed.

(** X4: a step of zero makes [range] raise inside the [try]: whatever the
    expression, [generatePoints] then returns the single zero sample and
    logs an evaluation failure. In [genImages] the step is [timeinc / 50],
    so that every function line of a plot whose time increment is below 50
    seconds degrades in this way. *)
Theorem generatePoints_zero_step
    (func_type func_def : string) (xmin xmax : Z) :
  let time_unit := getStandardUnitType E None "dateTime" None in
  let data_unit := getStandardUnitType E None func_type None in
  generatePoints E func_type func_def xmin xmax 0
  = ((zero_sample time_unit, zero_sample time_unit, zero_sample data_unit),
     [(LOG_ERR, EvalFailed func_def)]) /\
  forall (line_options : gmap string string) agg timeinc s,
    line_options !! "function_type" = Some func_type ->
    line_options !! "function_definition" = Some func_def ->
    0 <= timeinc < 50 ->
    fetch_vectors E line_options "function" agg xmin xmax timeinc s
    = (Ok (Some (zero_sample time_unit, zero_sample data_unit)), s,
       [(LOG_ERR, EvalFailed func_def)]).
Proof.
  intros time_unit data_unit.
  assert (generatePoints E func_type func_def xmin xmax 0
          = ((zero_sample time_unit, zero_sample time_unit,
              zero_sample data_unit),
             [(LOG_ERR, EvalFailed func_def)])) as Hgen.
  { unfold generatePoints, try_points, py_range. simpl.
    subst time_unit data_unit.
    destruct (getStandardUnitType E None "dateTime" None).
    destruct (getStandardUnitType E None func_type None).
    reflexivity. }
  split; [exact Hgen |].
  intros line_options agg timeinc s Hft Hfd Hinc.
  unfold fetch_vectors. simpl. rewrite Hft, Hfd.
  rewrite (Z.div_small timeinc 50 Hinc), Hgen. reflexivity.
Qed.

End GeneratePointsAtLarge.

Lemma generatePoints_samples_the_range_witness :
  let E := Station.station false in
  generatePoints E "outTemp" "1/x" 1 8 3
  = ((mkValueTuple [1; 4; 7]%Q None None,
      mkValueTuple [1; 4; 7]%Q None None,
      mkValueTuple [1; 0; 0]%Q None None), []).
Proof.
  cbv zeta.
  apply (generatePoints_samples_the_range (Station.station false)
           "outTemp" "1/x" 1 8 3 (fun x => inject_Z (1 / x))).
  - lia.
  - intros x vecs Hin. vm_compute in Hin.
    destruct Hin as [<- | [<- | [<- | []]]]; reflexivity.
Defined.

Lemma generatePoints_zero_step_witness :
  let E := Station.station false in
  fetch_vectors E (line_options Station.ramp_avg) "function"
                (Some ("avg", 3600)) 86400 172800 30 Station.nothing
  = (Ok (Some (zero_sample (None, None), zero_sample (None, None))),
     Station.nothing, [(LOG_ERR, EvalFailed "x")]).
Proof.
  cbv zeta.
  apply (proj2 (generatePoints_zero_step (Station.station false)
                  "outTemp" "x" 86400 172800));
    [reflexivity | reflexivity | lia].
Defined.

(** ** Lines that are skipped, and lines that abort *)

Section LineOptions.

Variable E : Collaborators.

Lemma genLine_function_incomplete (plot_options : gmap string string)
    (minstamp maxstamp timeinc : Z) (plot : PlotOf E) (section : LineSection)
    (agg : option (string * Z)) (s : locals E) :
  default (line_name section) (line_options section !! "data_type")
  = "function" ->
  aggregates_as E (line_options section) agg ->
  line_options section !! "function_type" = None \/
  line_options section !! "function_definition" = None ->
  genLine E plot_options minstamp maxstamp timeinc plot section s
  = (Ok plot, s, missing_function_options (line_options section)).
Proof.
  intros Hvar Hagg Hmissing. unfold genLine. rewrite Hvar.
  rewrite bind_run, (aggregation_settled _ _ _ _ _ Hagg).
  rewrite bind_run. unfold line_vectors. rewrite bind_run.
  unfold fetch_vectors, missing_function_options. simpl.
  destruct (line_options section !! "function_type") as [ft |],
           (line_options section !! "function_definition") as [fd |];
    try reflexivity.
  destruct Hmissing; discriminate.
Qed.

End LineOptions.

(** X5: a line of type [function] that leaves out [function_type] or
    [function_definition] is skipped: one error is logged for each option
    left out, the plot and the locals are as they were, and the pass ends
    as it would without that line. *)
Theorem incomplete_function_line_is_skipped
    (E : Collaborators) (section : LineSection) (agg : option (string * Z)) :
  default (line_name section) (line_options section !! "data_type")
  = "function" ->
  aggregates_as E (line_options section) agg ->
  line_options section !! "function_type" = None \/
  line_options section !! "function_definition" = None ->
  (forall plot_options minstamp maxstamp timeinc plot s,
      genLine E plot_options minstamp maxstamp timeinc plot section s
      = (Ok plot, s, missing_function_options (line_options section))) /\
  missing_function_options (line_options section) <> [] /\
  (forall gen_ts name options before after earlier later
          earlier_spans later_spans,
      outcome
        (genImages E gen_ts
           (earlier_spans
            ++ (earlier
                ++ mkPlotSection name options (before ++ section :: after)
                :: later)
            :: later_spans)%list)
      = outcome
          (genImages E gen_ts
             (earlier_spans
              ++ (earlier
                  ++ mkPlotSection name options (before ++ after) :: later)
              :: later_spans)%list)).
Proof.
  intros Hvar Hagg Hmissing.
  split; [| split].
  - intros. apply (genLine_function_incomplete _ _ _ _ _ _ _ agg); assumption.
  - unfold missing_function_options.
    destruct Hmissing as [-> | ->]; [discriminate |].
    destruct (line_options section !! "function_type"); discriminate.
  - intros. apply genImages_same_outcome.
    intros plot_options minstamp maxstamp timeinc plot s.
    rewrite (genLine_function_incomplete _ _ _ _ _ _ _ agg) by assumption.
    reflexivity.
Qed.

Lemma incomplete_function_line_is_skipped_witness :
  let E := Station.station false in
  genLine E Station.day_options 86400 172800 10800 Station.empty_plot
          Station.ramp_undefined Station.nothing
  = (Ok Station.empty_plot, Station.nothing,
     [(LOG_ERR, NoFunctionDefinition)]).
Proof.
  cbv zeta.
  apply (incomplete_function_line_is_skipped (Station.station false)
           Station.ramp_undefined None).
  - reflexivity.
  - reflexivity.
  - right. reflexivity.
Defined.

(** X6: of the failures of [as_int('aggregate_interval')] only the missing
    key is caught. When the interval is present and [int] rejects it, the
    exception leaves the loop over the lines: nothing is logged, no line
    is drawn, and the lines after it are not processed. *)
Theorem unreadable_interval_aborts
    (E : Collaborators) (plot_options : gmap string string)
    (minstamp maxstamp timeinc : Z) (plot : PlotOf E) (section : LineSection)
    (rest : list LineSection) (aggregate_type interval : string) (e : exn)
    (s : locals E) :
  line_options section !! "aggregate_type" = Some aggregate_type ->
  no_aggregation (Some aggregate_type) = false ->
  line_options section !! "aggregate_interval" = Some interval ->
  py_int E interval = Raise e ->
  genLines E plot_options minstamp maxstamp timeinc plot (section :: rest) s
  = (Raise e, s, []).
Proof.
  intros Htype Hsome Hinterval Hint. simpl. apply bind_raise.
  unfold genLine. apply bind_raise.
  unfold aggregation. rewrite Htype, Hsome, Hinterval.
  apply bind_raise. rewrite Hint. reflexivity.
Qed.

Lemma unreadable_interval_aborts_witness :
  let E := Station.station false in
  genLines E Station.day_options 86400 172800 10800 Station.empty_plot
           [Station.outTemp_hourly; Station.outTemp_gap] Station.nothing
  = (Raise ValueError, Station.nothing, []).
Proof.
  cbv zeta.
  apply (unreadable_interval_aborts (Station.station false)
           Station.day_options 86400 172800 10800 Station.empty_plot
           Station.outTemp_hourly [Station.outTemp_gap] "avg" "hourly");
    reflexivity.
Defined.

(** ** Lines read from the archive *)

Section ArchiveLines.

Variable E : Collaborators.

(** X7: when the aggregate type of a line read from the archive is absent
    or one of [''], ['None'], ['none'], the option [aggregate_interval] is
    not read, readable or not: the archive is asked for plain records, and
    the vectors it returns are drawn as they are, without the shift to the
    midpoint. *)
Theorem unaggregated_line_is_drawn_as_fetched
    (plot_options : gmap string string)
    (minstamp maxstamp timeinc : Z) (plot : PlotOf E) (section : LineSection)
    (binding : string) (start stop data : ValueTuple) (s : locals E) :
  let line_options := line_options section in
  let var_type := default (line_name section) (line_options !! "data_type") in
  var_type <> "function" ->
  no_aggregation (line_options !! "aggregate_type") = true ->
  line_options !! "data_binding" = Some binding ->
  getSqlVectors E binding (minstamp, maxstamp) var_type None None
  = Ok (start, stop, data) ->
  genLine E plot_options minstamp maxstamp timeinc plot section s
  = draw_line E plot_options line_options var_type
      (default "line" (line_options !! "plot_type"))
      start data plot (mkLocals E (Some stop) (ngen E s) (written E s)).
Proof.
  intros line_options var_type Hvar Hnone Hbinding Hsql.
  apply (genLine_archive E plot_options minstamp maxstamp timeinc plot section
           binding None start stop data s Hvar Hnone Hbinding Hsql).
Qed.

(** X8: a line read from the archive whose aggregate type is avg, max or
    min in any case, and whose plot type is not [bar], is drawn from the
    vectors the archive returned with every start and stop sample moved
    back by half the aggregate interval; with plot type [bar], or with
    another aggregate type, it is drawn from the vectors as returned. *)
Theorem archive_line_is_drawn_at_midpoints
    (plot_options : gmap string string)
    (minstamp maxstamp timeinc : Z) (plot : PlotOf E) (section : LineSection)
    (binding aggregate_type : string) (aggregate_interval : Z)
    (start stop data : ValueTuple) (s : locals E) :
  let line_options := line_options section in
  let var_type := default (line_name section) (line_options !! "data_type") in
  let plot_type := default "line" (line_options !! "plot_type") in
  var_type <> "function" ->
  aggregates_as E line_options (Some (aggregate_type, aggregate_interval)) ->
  line_options !! "data_binding" = Some binding ->
  getSqlVectors E binding (minstamp, maxstamp) var_type
                (Some aggregate_type) (Some aggregate_interval)
  = Ok (start, stop, data) ->
  exists start' stop',
    genLine E plot_options minstamp maxstamp timeinc plot section s
    = draw_line E plot_options line_options var_type plot_type
        start' data plot
        (mkLocals E (Some stop') (ngen E s) (written E s)) /\
    (lower aggregate_type ∈ midpoint_types -> plot_type <> "bar" ->
     shifted_by (- (inject_Z aggregate_interval / 2))
                (value start) (value start') /\
     shifted_by (- (inject_Z aggregate_interval / 2))
                (value stop) (value stop')) /\
    (plot_type = "bar" \/ lower aggregate_type ∉ midpoint_types ->
     start' = start /\ stop' = stop).
Proof.
  intros line_options var_type plot_type Hvar Hagg Hbinding Hsql.
  rewrite (genLine_archive E plot_options minstamp maxstamp timeinc plot
             section binding (Some (aggregate_type, aggregate_interval))
             start stop data s Hvar Hagg Hbinding Hsql).
  fold line_options var_type plot_type.
  cbn [default from_option id snd fmap option_fmap option_map].
  destruct (wants_midpoint (Some (aggregate_type, aggregate_interval))
                           plot_type) eqn:Hwants.
  - exists (shift_back aggregate_interval start),
           (shift_back aggregate_interval stop).
    split; [reflexivity |]. split.
    + intros _ _. split; apply shift_back_shifted.
    + apply wants_midpoint_spec in Hwants as [Hin Hbar].
      intros [Hbar' | Hnot]; contradiction.
  - exists start, stop. split; [reflexivity |]. split; [| auto].
    intros Hin Hbar.
    assert (wants_midpoint (Some (aggregate_type, aggregate_interval))
                           plot_type = true) as Hyes
      by (apply wants_midpoint_spec; auto).
    congruence.
Qed.

End ArchiveLines.

Lemma unaggregated_line_is_drawn_as_fetched_witness :
  let E := Station.station false in
  genLine E Station.day_options 86400 172800 10800 Station.empty_plot
          Station.outTemp_none Station.nothing
  = draw_line E Station.day_options (line_options Station.outTemp_none)
      "outTemp" "line" (Station.seconds [3600; 7200])
      (Station.degrees [20; 21]%Q) Station.empty_plot
      (mkLocals E (Some (Station.seconds [7200; 10800])) 0 []).
Proof.
  cbv zeta.
  apply (unaggregated_line_is_drawn_as_fetched (Station.station false)
           Station.day_options 86400 172800 10800 Station.empty_plot
           Station.outTemp_none "wx_binding").
  - simpl. discriminate.
  - reflexivity.
  - reflexivity.
  - reflexivity.
Defined.

Lemma archive_line_is_drawn_at_midpoints_witness :
  let E := Station.station false in
  exists start' stop',
    genLine E Station.day_options 86400 172800 10800 Station.empty_plot
            Station.outTemp_avg Station.nothing
    = draw_line E Station.day_options (line_options Station.outTemp_avg)
        "outTemp" "line" start' (Station.degrees [20; 21]%Q)
        Station.empty_plot (mkLocals E (Some stop') 0 []) /\
    (lower "avg" ∈ midpoint_types -> "line" <> "bar" ->
     shifted_by (- (inject_Z 3600 / 2))
                (value (Station.seconds [3600; 7200])) (value start') /\
     shifted_by (- (inject_Z 3600 / 2))
                (value (Station.seconds [7200; 10800])) (value stop')) /\
    ("line" = "bar" \/ lower "avg" ∉ midpoint_types ->
     start' = Station.seconds [3600; 7200] /\
     stop' = Station.seconds [7200; 10800]).
Proof.
  cbv zeta.
  apply (archive_line_is_drawn_at_midpoints (Station.station false)
           Station.day_options 86400 172800 10800 Station.empty_plot
           Station.outTemp_avg "wx_binding" "avg" 3600
           (Station.seconds [3600; 7200]) (Station.seconds [7200; 10800])
           (Station.degrees [20; 21]%Q) Station.nothing).
  - simpl. discriminate.
  - simpl. repeat split. exists "3600". split; reflexivity.
  - reflexivity.
  - reflexivity.
Defined.

(** ** Images written and counted *)

Section Images.

Variable E : Collaborators.

Lemma adds_images_weaken {A} (n k : nat) (m : M E A) :
  (n <= k)%nat -> adds_images n m -> adds_images k m.
Proof.
  intros Hle Hm s r s' l Hrun.
  destruct (Hm s r s' l Hrun) as (added & Hw & Hn & Hlen).
  exists added. repeat split; [assumption | assumption | lia].
Qed.

Lemma adds_images_same {A} (m : M E A) :
  (forall s r s' l, m s = (r, s', l) ->
                    written E s' = written E s /\ ngen E s' = ngen E s) ->
  adds_images 0 m.
Proof.
  intros Hm s r s' l Hrun. destruct (Hm s r s' l Hrun) as [Hw Hn].
  exists []. rewrite app_nil_r. simpl. repeat split; [assumption | lia | lia].
Qed.

Lemma adds_images_ret {A} (a : A) : adds_images 0 (mret a : M E A).
Proof. apply adds_images_same. intros s r s' l [= _ <- _]. auto. Qed.

Lemma adds_images_raise {A} (e : exn) : adds_images 0 (raise E e : M E A).
Proof. apply adds_images_same. intros s r s' l [= _ <- _]. auto. Qed.

Lemma adds_images_lift {A} (r : result A) : adds_images 0 (lift E r).
Proof.
  destruct r; [apply (adds_images_ret a) | apply adds_images_raise].
Qed.

Lemma adds_images_syslog (lvl : level) (msg : message) :
  adds_images 0 (syslog E lvl msg).
Proof. apply adds_images_same. intros s r s' l [= _ <- _]. auto. Qed.

Lemma adds_images_tell (logged : list log_entry) :
  adds_images 0 (tell E logged).
Proof. apply adds_images_same. intros s r s' l [= _ <- _]. auto. Qed.

Lemma adds_images_getitem (d : gmap string string) (key : string) :
  adds_images 0 (getitem E d key).
Proof.
  unfold getitem. destruct (d !! key);
    [apply (adds_images_ret s) | apply adds_images_raise].
Qed.

Lemma adds_images_read_stop_vec_t : adds_images 0 (read_stop_vec_t E).
Proof.
  apply adds_images_same. intros s r s' l. unfold read_stop_vec_t.
  destruct (stop_vec_t E s); intros [= _ <- _]; auto.
Qed.

Lemma adds_images_assign_stop_vec_t (v : ValueTuple) :
  adds_images 0 (assign_stop_vec_t E v).
Proof. apply adds_images_same. intros s r s' l [= _ <- _]. auto. Qed.

Lemma adds_images_bind {A B} (n k : nat) (m : M E A) (f : A -> M E B) :
  adds_images n m ->
  (forall a, adds_images k (f a)) ->
  adds_images (n + k) (a ← m; f a).
Proof.
  intros Hm Hf s r s' l. rewrite bind_run.
  destruct (m s) as [[[a | e] s1] l1] eqn:Hrun.
  - destruct (f a s1) as [[r2 s2] l2] eqn:Hrun2. intros [= <- <- <-].
    destruct (Hm _ _ _ _ Hrun) as (added1 & Hw1 & Hn1 & Hlen1).
    destruct (Hf a _ _ _ _ Hrun2) as (added2 & Hw2 & Hn2 & Hlen2).
    exists (added1 ++ added2)%list. rewrite Hw2, Hw1, Hn2, Hn1, length_app.
    rewrite app_assoc. repeat split; lia.
  - intros [= <- <- <-].
    destruct (Hm _ _ _ _ Hrun) as (added1 & Hw1 & Hn1 & Hlen1).
    exists added1. repeat split; [assumption | assumption | lia].
Qed.

Lemma adds_images_bind_quiet {A B} (k : nat) (m : M E A) (f : A -> M E B) :
  adds_images 0 m ->
  (forall a, adds_images k (f a)) ->
  adds_images k (a ← m; f a).
Proof. intros Hm Hf. apply (adds_images_bind 0 k m f Hm Hf). Qed.

End Images.

(** Steps through a computation none of whose parts writes an image. *)
Ltac quiet :=
  repeat first
    [ apply adds_images_ret
    | apply adds_images_raise
    | apply adds_images_lift
    | apply adds_images_syslog
    | apply adds_images_tell
    | apply adds_images_getitem
    | apply adds_images_read_stop_vec_t
    | apply adds_images_assign_stop_vec_t
    | match goal with H : _ |- _ => apply H end
    | apply adds_images_bind_quiet; [| intros ?]
    | match goal with
      | |- adds_images _ (match ?x with _ => _ end) => destruct x
      | |- adds_images _ (if ?b then _ else _) => destruct b
      | |- adds_images _ (let (_, _) := ?x in _) => destruct x
      end ].

Section QuietSteps.

Variable E : Collaborators.

Lemma adds_images_aggregation (line_options : gmap string string)
    (var_type : string) :
  adds_images 0 (aggregation E line_options var_type).
Proof. unfold aggregation. quiet. Qed.

Lemma adds_images_fetch_vectors (line_options : gmap string string)
    (var_type : string) (agg : option (string * Z))
    (minstamp maxstamp timeinc : Z) :
  adds_images 0
    (fetch_vectors E line_options var_type agg minstamp maxstamp timeinc).
Proof. unfold fetch_vectors. quiet. Qed.

Lemma adds_images_line_vectors (line_options : gmap string string)
    (var_type : string) (agg : option (string * Z)) (plot_type : string)
    (minstamp maxstamp timeinc : Z) :
  adds_images 0
    (line_vectors E line_options var_type agg plot_type
                  minstamp maxstamp timeinc).
Proof.
  unfold line_vectors.
  apply adds_images_bind_quiet; [apply adds_images_fetch_vectors |].
  intros [[start data] |]; [| quiet].
  unfold debug_assertion, align. quiet.
Qed.

Lemma adds_images_special_treatments (line_options : gmap string string)
    (plot_type : string) (new_start new_stop : ValueTuple) :
  adds_images 0
    (special_treatments E line_options plot_type new_start new_stop).
Proof. unfold special_treatments. quiet. Qed.

Lemma adds_images_draw_line (plot_options line_options : gmap string string)
    (var_type plot_type : string) (start data : ValueTuple) (plot : PlotOf E) :
  adds_images 0
    (draw_line E plot_options line_options var_type plot_type
               start data plot).
Proof.
  unfold draw_line, conversions, optional_color.
  pose proof adds_images_special_treatments. quiet.
Qed.

Lemma adds_images_genLine (plot_options : gmap string string)
    (minstamp maxstamp timeinc : Z) (plot : PlotOf E) (section : LineSection) :
  adds_images 0
    (genLine E plot_options minstamp maxstamp timeinc plot section).
Proof.
  unfold genLine.
  pose proof adds_images_aggregation. pose proof adds_images_line_vectors.
  pose proof adds_images_draw_line. quiet.
Qed.

Lemma adds_images_genLines (plot_options : gmap string string)
    (minstamp maxstamp timeinc : Z) (sections : list LineSection) :
  forall plot : PlotOf E,
    adds_images 0
      (genLines E plot_options minstamp maxstamp timeinc plot sections).
Proof.
  induction sections as [| section rest IH]; intros plot; simpl.
  - apply adds_images_ret.
  - apply adds_images_bind_quiet; [apply adds_images_genLine | exact IH].
Qed.

End QuietSteps.

Section ImagesOfAPass.

Variable E : Collaborators.

Lemma adds_images_render_and_save (plot : PlotOf E) (img_file : string) :
  adds_images 1 (render_and_save E plot img_file).
Proof.
  unfold render_and_save.
  apply adds_images_bind_quiet; [apply adds_images_lift | intros img].
  destruct (save E img img_file) as [[] | e].
  - intros s r s' l [= _ <- _]. exists [(img_file, img)]. simpl.
    repeat split; lia.
  - apply (adds_images_weaken E 0 1); [lia |]. destruct e; quiet.
Qed.

Lemma adds_images_draw_plot (plot_options : gmap string string)
    (plotgen_ts : Z) (img_file : string) (sections : list LineSection) :
  adds_images 1 (draw_plot E plot_options plotgen_ts img_file sections).
Proof.
  unfold draw_plot, time_scaling.
  apply adds_images_bind_quiet; [quiet | intros _].
  apply adds_images_bind_quiet; [quiet | intros [[minstamp maxstamp] timeinc]].
  apply adds_images_bind_quiet; [quiet | intros deco].
  apply adds_images_bind_quiet; [apply adds_images_genLines | intros plot].
  apply adds_images_render_and_save.
Qed.

Lemma adds_images_genPlot (gen_ts : option Z) (section : PlotSection) :
  adds_images 1 (genPlot E gen_ts section).
Proof.
  unfold genPlot.
  apply adds_images_bind_quiet; [unfold plot_timestamp; quiet | intros ts].
  apply adds_images_bind_quiet; [quiet | intros html_root].
  apply adds_images_bind_quiet; [quiet | intros ai].
  apply adds_images_bind_quiet; [quiet | intros skip].
  destruct skip; [apply (adds_images_weaken E 0 1); [lia | quiet] |].
  apply adds_images_bind_quiet; [unfold fresh_image; quiet | intros fresh].
  destruct fresh; [apply (adds_images_weaken E 0 1); [lia | quiet] |].
  apply adds_images_draw_plot.
Qed.

Lemma adds_images_genPlots (gen_ts : option Z) (plots : list PlotSection) :
  adds_images (length plots) (genPlots E gen_ts plots).
Proof.
  induction plots as [| section rest IH]; simpl.
  - apply (adds_images_ret E tt).
  - apply (adds_images_bind E 1 (length rest));
      [apply adds_images_genPlot | intros _; exact IH].
Qed.

Lemma adds_images_genSpans (gen_ts : option Z)
    (spans : list (list PlotSection)) :
  adds_images (length (concat spans)) (genSpans E gen_ts spans).
Proof.
  induction spans as [| plots rest IH]; simpl.
  - apply (adds_images_ret E tt).
  - rewrite length_app.
    apply (adds_images_bind E (length plots) (length (concat rest)));
      [apply adds_images_genPlots | intros _; exact IH].
Qed.

(** X9: however a pass ends, in success or in an exception, the counter
    [ngen] equals the number of images written, which is at most the number
    of plots configured; and when the pass succeeds with [log_success] set,
    its last log entry reports exactly that number. *)
Theorem genImages_counts_what_it_writes
    (gen_ts : option Z) (image_dict : list (list PlotSection)) :
  let run := genImages E gen_ts image_dict in
  let s := snd (fst run) in
  ngen E s = length (written E s) /\
  (length (written E s) <= length (concat image_dict))%nat /\
  (fst (fst run) = Ok tt -> log_success E = true ->
   exists before,
     snd run
     = (before ++ [(LOG_INFO, Generated (length (written E s)))])%list).
Proof.
  unfold genImages. cbv zeta. rewrite bind_run.
  destruct (genSpans E gen_ts image_dict (mkLocals E None 0 []))
    as [[r1 s1] l1] eqn:Hspans.
  destruct (adds_images_genSpans gen_ts image_dict _ _ _ _ Hspans)
    as (added & Hw & Hn & Hlen). simpl in Hw, Hn.
  destruct r1 as [[] | e]; unfold report_success; simpl;
    rewrite Hw, Hn; (split; [reflexivity |]); (split; [exact Hlen |]).
  - intros _ ->. exists l1. reflexivity.
  - discriminate.
Qed.

End ImagesOfAPass.

(** ** Plots that are skipped, and plots that abort *)

Section Plots.

Variable E : Collaborators.

Lemma let_run {A} (run : result A * locals E * list log_entry) :
  (let '(r, s, l) := run in (r, s, l)) = run.
Proof. destruct run as [[r s] l]. reflexivity. Qed.

Lemma genPlot_from_skip_decision (gen_ts : option Z) (section : PlotSection)
    (plotgen_ts : Z) (html_root : string) (ai : option Z) (skip : bool)
    (s : locals E) :
  plot_timestamp E gen_ts (plot_options section) s = (Ok plotgen_ts, s, []) ->
  plot_options section !! "HTML_ROOT" = Some html_root ->
  to_int E (plot_options section !! "aggregate_interval") = Ok ai ->
  skipThisPlot E plotgen_ts ai (image_path E section html_root)
  = Ok skip ->
  genPlot E gen_ts section s
  = if skip then (Ok tt, s, [])
    else
      (fresh ← fresh_image E (plot_options section)
                 (image_path E section html_root);
       match fresh with
       | true => mret tt
       | false =>
           draw_plot E (plot_options section) plotgen_ts
                     (image_path E section html_root)
                     (line_sections section)
       end) s.
Proof.
  intros Hts Hroot Hai Hskip. unfold genPlot.
  rewrite bind_run, Hts. rewrite bind_run. unfold getitem. rewrite Hroot.
  simpl. rewrite bind_run, Hai. simpl.
  fold (image_path E section html_root).
  rewrite bind_run, Hskip. simpl. destruct skip; [reflexivity |].
  cbn [app]. rewrite !let_run. reflexivity.
Qed.

(** X10: a plot that [skipThisPlot] tells to skip costs nothing: the
    archive is not read for its lines, nothing is logged, the locals are
    as they were, and the pass goes on with the next plot. *)
Theorem skipped_plot_does_nothing
    (gen_ts : option Z) (section : PlotSection) (plotgen_ts : Z)
    (html_root : string) (ai : option Z) (s : locals E) :
  plot_timestamp E gen_ts (plot_options section) s = (Ok plotgen_ts, s, []) ->
  plot_options section !! "HTML_ROOT" = Some html_root ->
  to_int E (plot_options section !! "aggregate_interval") = Ok ai ->
  skipThisPlot E plotgen_ts ai (image_path E section html_root)
  = Ok true ->
  genPlot E gen_ts section s = (Ok tt, s, []) /\
  forall rest,
    genPlots E gen_ts (section :: rest) s = genPlots E gen_ts rest s.
Proof.
  intros Hts Hroot Hai Hskip.
  pose proof (genPlot_from_skip_decision gen_ts section plotgen_ts html_root
                ai true s Hts Hroot Hai Hskip) as Hplot.
  split; [exact Hplot |].
  intros rest. simpl. rewrite bind_run, Hplot.
  destruct (genPlots E gen_ts rest s) as [[r s2] l2]. reflexivity.
Qed.

(** The staleness test of lines 93-103 answers true exactly when a stale
    age is configured, the image exists, and it is younger than that age. *)
Lemma fresh_image_true (plot_options : gmap string string)
    (img_file : string) (stale : option Z) (s : locals E) :
  to_int E (plot_options !! "stale_age") = Ok stale ->
  fresh_image E plot_options img_file s
  = match stale, st_mtime E img_file with
    | Some age, Some last_mod =>
        if time_time E - last_mod <? age then
          (Ok true, s,
           [(LOG_DEBUG,
             SkipFresh img_file last_mod (time_time E - last_mod) age)])
        else (Ok false, s, [])
    | _, _ => (Ok false, s, [])
    end.
Proof.
  intros Hstale. unfold fresh_image. rewrite bind_run, Hstale. simpl.
  destruct stale as [age |]; [| reflexivity].
  destruct (st_mtime E img_file) as [last_mod |]; [| reflexivity].
  destruct (time_time E - last_mod <? age); reflexivity.
Qed.

(** X11: a plot that passes the skip decision is still left alone when a
    stale age is configured and its image is younger than that age by the
    clock: one debug message is logged and nothing else happens. An image
    that does not exist is never taken for fresh. *)
Theorem fresh_plot_is_left_alone
    (gen_ts : option Z) (section : PlotSection) (plotgen_ts : Z)
    (html_root : string) (ai : option Z) (age : Z) (s : locals E) :
  let img_file := image_path E section html_root in
  plot_timestamp E gen_ts (plot_options section) s = (Ok plotgen_ts, s, []) ->
  plot_options section !! "HTML_ROOT" = Some html_root ->
  to_int E (plot_options section !! "aggregate_interval") = Ok ai ->
  skipThisPlot E plotgen_ts ai img_file = Ok false ->
  to_int E (plot_options section !! "stale_age") = Ok (Some age) ->
  (forall last_mod,
      st_mtime E img_file = Some last_mod ->
      time_time E - last_mod < age ->
      genPlot E gen_ts section s
      = (Ok tt, s,
         [(LOG_DEBUG,
           SkipFresh img_file last_mod (time_time E - last_mod) age)])) /\
  (st_mtime E img_file = None ->
   genPlot E gen_ts section s
   = draw_plot E (plot_options section) plotgen_ts img_file
               (line_sections section) s).
Proof.
  intros img_file Hts Hroot Hai Hskip Hstale.
  pose proof (genPlot_from_skip_decision gen_ts section plotgen_ts html_root
                ai false s Hts Hroot Hai Hskip) as Hplot.
  fold img_file in Hplot.
  rewrite bind_run, (fresh_image_true _ _ _ _ Hstale) in Hplot.
  split.
  - intros last_mod Hmtime Hyoung. rewrite Hplot, Hmtime.
    apply Z.ltb_lt in Hyoung. rewrite Hyoung. reflexivity.
  - intros Hmissing. rewrite Hplot, Hmissing.
    destruct (draw_plot E (plot_options section) plotgen_ts img_file
                        (line_sections section) s) as [[r s2] l2].
    reflexivity.
Qed.

(** X12: a plot whose options lack [HTML_ROOT] raises [KeyError] before
    anything is drawn; nothing in [genImages] catches it, so the plots
    after it are not generated. *)
Theorem missing_html_root_aborts
    (gen_ts : option Z) (section : PlotSection) (rest : list PlotSection)
    (plotgen_ts : Z) (s : locals E) :
  plot_timestamp E gen_ts (plot_options section) s = (Ok plotgen_ts, s, []) ->
  plot_options section !! "HTML_ROOT" = None ->
  genPlots E gen_ts (section :: rest) s = (Raise (KeyError "HTML_ROOT"), s, []).
Proof.
  intros Hts Hroot. simpl. apply bind_raise.
  unfold genPlot. rewrite bind_run, Hts.
  rewrite bind_run. unfold getitem. rewrite Hroot. reflexivity.
Qed.

(** X13: a timestamp of 0 counts as no timestamp, for [gen_ts] as for the
    archive's last good stamp: a pass asked for time 0 is the pass asked
    for no time, and an archive that answers 0 (or nothing) leaves the
    plot on the clock. *)
Theorem zero_timestamp_is_no_timestamp
    (image_dict : list (list PlotSection)) :
  genImages E (Some 0) image_dict = genImages E None image_dict /\
  forall plot_options binding s,
    plot_options !! "data_binding" = Some binding ->
    lastGoodStamp E binding = Ok (Some 0) \/
    lastGoodStamp E binding = Ok None ->
    plot_timestamp E None plot_options s = (Ok (time_time E), s, []).
Proof.
  split.
  - unfold genImages. f_equal.
    assert (forall plots, genPlots E (Some 0) plots = genPlots E None plots)
      as Hplots.
    { induction plots as [| p plots IH]; simpl; [reflexivity |].
      rewrite IH. reflexivity. }
    induction image_dict as [| plots spans IH]; simpl; [reflexivity |].
    rewrite IH, Hplots. reflexivity.
  - intros plot_options binding s Hbinding Hlast.
    unfold plot_timestamp. simpl. rewrite bind_run. unfold getitem.
    rewrite Hbinding. simpl. rewrite bind_run.
    destruct Hlast as [-> | ->]; reflexivity.
Qed.

(** X14: when [image.save] raises [IOError] the failure is logged as
    critical and the plot is passed over: [draw_plot] returns normally, the
    image is neither counted nor recorded, and what the lines logged and
    left in the locals stays. *)
Theorem failed_save_is_logged_and_passed_over
    (plot_options : gmap string string) (plotgen_ts : Z) (img_file : string)
    (sections : list LineSection) (scaling : Z * Z * Z)
    (deco : decoration E) (plot : PlotOf E) (img : image E)
    (s s1 : locals E) (l1 : list log_entry) :
  TimePlot_init E plot_options = Ok tt ->
  time_scaling E plot_options plotgen_ts s = (Ok scaling, s, []) ->
  plot_decoration E plot_options plotgen_ts = Ok deco ->
  genLines E plot_options (fst (fst scaling)) (snd (fst scaling)) (snd scaling)
           (mkTimePlot plot_options scaling deco None []) sections s
  = (Ok plot, s1, l1) ->
  render E plot = Ok img ->
  save E img img_file = Raise IOError ->
  draw_plot E plot_options plotgen_ts img_file sections s
  = (Ok tt, s1, (l1 ++ [(LOG_CRIT, UnableToSave img_file)])%list) /\
  ngen E s1 = ngen E s /\ written E s1 = written E s.
Proof.
  intros Hinit Hscale Hdeco Hlines Hrender Hsave.
  split.
  - unfold draw_plot. rewrite bind_run, Hinit. simpl.
    rewrite bind_run, Hscale. destruct scaling as [[minstamp maxstamp] timeinc].
    simpl in Hlines. simpl. rewrite bind_run, Hdeco. simpl.
    rewrite bind_run, Hlines. unfold render_and_save.
    rewrite bind_run, Hrender. simpl. rewrite Hsave. reflexivity.
  - destruct (adds_images_genLines E _ _ _ _ _ _ _ _ _ _ Hlines)
      as (added & Hw & Hn & Hlen).
    destruct added; [| simpl in Hlen; lia].
    rewrite app_nil_r in Hw. simpl in Hn. split; [lia | exact Hw].
Qed.

End Plots.

Lemma skipped_plot_does_nothing_witness :
  let E := Station.station false in
  genPlot E (Some 174000) Station.daytemp Station.nothing
  = (Ok tt, Station.nothing, []) /\
  forall rest,
    genPlots E (Some 174000) (Station.daytemp :: rest) Station.nothing
    = genPlots E (Some 174000) rest Station.nothing.
Proof.
  cbv zeta.
  apply (skipped_plot_does_nothing (Station.station false) (Some 174000)
           Station.daytemp 174000 "public_html" (Some 3600) Station.nothing);
    reflexivity.
Defined.

Lemma fresh_plot_is_left_alone_witness :
  let E := Station.station false in
  let img_file := "/home/weewx/public_html/daytemp.png" in
  genPlot E (Some 174000) Station.daytemp_stale Station.nothing
  = (Ok tt, Station.nothing, [(LOG_DEBUG, SkipFresh img_file 172700 200 600)]).
Proof.
  cbv zeta.
  apply (fresh_plot_is_left_alone (Station.station false) (Some 174000)
           Station.daytemp_stale 174000 "public_html" None 600
           Station.nothing);
    reflexivity.
Defined.

Lemma missing_html_root_aborts_witness :
  let E := Station.station false in
  genPlots E (Some 174000) [Station.homeless; Station.daytemp] Station.nothing
  = (Raise (KeyError "HTML_ROOT"), Station.nothing, []).
Proof.
  cbv zeta.
  apply (missing_html_root_aborts (Station.station false) (Some 174000)
           Station.homeless [Station.daytemp] 174000 Station.nothing);
    reflexivity.
Defined.

Lemma zero_timestamp_is_no_timestamp_witness :
  let E := Station.outfit (fun _ => Ok "C") (fun _ => Ok tt) (Some 0) in
  plot_timestamp E None Station.day_options (mkLocals E None 0 [])
  = (Ok 172900, mkLocals E None 0 [], []).
Proof.
  cbv zeta.
  apply (proj2 (zero_timestamp_is_no_timestamp
                  (Station.outfit (fun _ => Ok "C") (fun _ => Ok tt) (Some 0))
                  []) Station.day_options "wx_binding");
    [reflexivity | left; reflexivity].
Defined.

Lemma failed_save_is_logged_and_passed_over_witness :
  let E :=
    Station.outfit (fun _ => Ok " C ") (fun _ => Raise IOError) None in
  let img_file := "/home/weewx/public_html/dayinside.png" in
  let s1 := mkLocals E (Some (Station.seconds [7200])) 0 [] in
  draw_plot E Station.day_options 172800 img_file [Station.inTemp_raw]
            (mkLocals E None 0 [])
  = (Ok tt, s1, [(LOG_CRIT, UnableToSave img_file)]) /\
  ngen E s1 = 0%nat /\ written E s1 = [].
Proof.
  cbv zeta.
  apply (failed_save_is_logged_and_passed_over
           (Station.outfit (fun _ => Ok " C ") (fun _ => Raise IOError) None)
           Station.day_options 172800 "/home/weewx/public_html/dayinside.png"
           [Station.inTemp_raw] (86400, 172800, 10800) tt
           Station.inside_plot Station.inside_plot
           (mkLocals _ None 0 []) (mkLocals _ (Some (Station.seconds [7200])) 0 [])
           []);
    reflexivity.
Defined.

(** ** What a drawn line carries *)

(** Closes the cases of an inversion once the results are substituted. *)
Ltac settle :=
  repeat split; intros; subst;
  repeat match goal with
         | H : Some _ = Some _ |- _ => injection H as <-
         | H : None = Some _ |- _ => discriminate H
         end;
  try discriminate; try contradiction; eauto 8.

Section DrawnLines.

Variable E : Collaborators.

Lemma special_treatments_inv (line_options : gmap string string)
    (plot_type : string) (new_start new_stop : ValueTuple)
    (s s' : locals E) interval_vec rotate gap (l : list log_entry) :
  special_treatments E line_options plot_type new_start new_stop s
  = (Ok (interval_vec, rotate, gap), s', l) ->
  s' = s /\
  interval_vec
  = (if String.eqb plot_type "bar"
     then Some (interval_vector new_start new_stop) else None) /\
  (forall g, gap = Some g ->
             plot_type = "line" /\ in_unit_interval g = true /\
             to_float E (line_options !! "line_gap_fraction") = Ok (Some g)) /\
  (forall r, rotate = Some r ->
             plot_type = "vector" /\
             exists str angle,
               line_options !! "vector_rotate" = Some str /\
               py_float E str = Ok angle /\ r = (- angle)%Q) /\
  (plot_type = "vector" -> interval_vec = None /\ gap = None) /\
  (plot_type = "bar" -> gap = None).
Proof.
  unfold special_treatments.
  destruct (String.eqb_spec plot_type "vector") as [-> | Hvector].
  - simpl. destruct (line_options !! "vector_rotate") as [str |] eqn:Hstr.
    + intros H. apply bind_inv in H as (angle & s1 & l1 & l2 & H1 & H & ->).
      apply lift_inv in H1 as (Hangle & -> & ->).
      injection H as <- <- <- <- _. settle.
    + intros [= <- <- <- <- _]. settle.
  - intros H. apply bind_inv in H as (g0 & s1 & l1 & l2 & H1 & H & ->).
    destruct (String.eqb_spec plot_type "bar") as [-> | Hbar].
    + injection H1 as <- <- <-. injection H as <- <- <- <- _. settle.
    + destruct (String.eqb_spec plot_type "line") as [-> | Hline].
      * apply lift_inv in H1 as (Hfloat & -> & ->).
        destruct g0 as [g |]; [destruct (in_unit_interval g) eqn:Hin |];
          injection H as <- <- <- <- _; settle.
      * injection H1 as <- <- <-. injection H as <- <- <- <- _. settle.
Qed.

(** The whole of what a successful [draw_line] returns. *)
Lemma draw_line_shape (plot_options line_options : gmap string string)
    (var_type type_of_plot : string) (start_vec_t data_vec_t : ValueTuple)
    (plot plot' : PlotOf E) (s s' : locals E) (l : list log_entry) :
  draw_line E plot_options line_options var_type type_of_plot
            start_vec_t data_vec_t plot s = (Ok plot', s', l) ->
  exists stop new_start new_stop new_data standard_label colour fill wide
         interval_vec rotate gap style,
    stop_vec_t E s = Some stop /\
    convert E start_vec_t = Ok new_start /\
    convert E stop = Ok new_stop /\
    convert E data_vec_t = Ok new_data /\
    get_label_string E var_type = Ok standard_label /\
    special_treatments E line_options type_of_plot new_start new_stop s
    = (Ok (interval_vec, rotate, gap), s, l) /\
    s' = s /\
    plot'
    = mkTimePlot (config plot) (x_scaling plot) (decor plot)
        (Some (strip (default standard_label (line_options !! "y_label"))))
        (line_list plot
         ++ [mkPlotLine (value new_stop) (value new_data)
               (line_label E line_options var_type) colour fill wide
               type_of_plot interval_vec rotate gap style])%list.
Proof.
  unfold draw_line. intros H.
  apply bind_inv in H as ([[ns nt] nd] & s1 & l1 & l2 & Hconv & H & ->).
  apply conversions_inv in Hconv
    as (stop & Hstop & Hns & Hnt & Hnd & -> & ->).
  apply bind_inv in H as (lbl & s2 & l3 & l4 & H1 & H & ->).
  apply lift_inv in H1 as (Hlbl & -> & ->).
  apply bind_inv in H as (c & s3 & l5 & l6 & H1 & H & ->).
  apply optional_color_inv in H1 as (-> & ->).
  apply bind_inv in H as (fc & s4 & l7 & l8 & H1 & H & ->).
  apply optional_color_inv in H1 as (-> & ->).
  apply bind_inv in H as (w & s5 & l9 & l10 & H1 & H & ->).
  apply lift_inv in H1 as (_ & -> & ->).
  apply bind_inv in H as ([[iv vr] gf] & s6 & l11 & l12 & Hsp & H & ->).
  apply bind_inv in H as (sty & s7 & l13 & l14 & H1 & H & ->).
  apply lift_inv in H1 as (_ & -> & ->).
  injection H as <- <- <-.
  pose proof (special_treatments_inv _ _ _ _ _ _ _ _ _ _ Hsp) as [-> _].
  exists stop, ns, nt, nd, lbl, c, fc, w, iv, vr, gf, sty.
  simpl. rewrite !app_nil_r. repeat split; assumption || reflexivity.
Qed.

Lemma drawn_line_treated_by_type (line_options : gmap string string)
    (plot_type : string) (new_start new_stop : ValueTuple)
    (s s' : locals E) interval_vec rotate gap (l : list log_entry)
    (ys : list Q) (lbl : string) (c fc w : option Z) (sty : line_style E) :
  special_treatments E line_options plot_type new_start new_stop s
  = (Ok (interval_vec, rotate, gap), s', l) ->
  treated_by_type
    (mkPlotLine (value new_stop) ys lbl c fc w plot_type interval_vec
                rotate gap sty).
Proof.
  intros Hsp.
  apply special_treatments_inv in Hsp
    as (_ & Hiv & Hgap & Hrot & _ & _).
  unfold treated_by_type. simpl. split; [| split; [| split]].
  - rewrite Hiv. destruct (String.eqb_spec plot_type "bar") as [-> | Hbar].
    + split; eauto.
    + split; [intros [? [=]] | contradiction].
  - intros g Hg. destruct (Hgap g Hg) as (Hline & Hin & _).
    split; [exact Hline | apply in_unit_interval_spec; exact Hin].
  - intros r Hr. apply (Hrot r Hr).
  - intros widths. rewrite Hiv.
    destruct (String.eqb plot_type "bar"); [| discriminate].
    intros [= <-]. rewrite interval_vector_length. lia.
Qed.

End DrawnLines.

Section LinesOfAPlot.

Variable E : Collaborators.
Variable plot_options : gmap string string.
Variables minstamp maxstamp timeinc : Z.

(** A line that returns was either skipped or drawn by [draw_line]. *)
Lemma genLine_inv (plot plot' : PlotOf E) (section : LineSection)
    (s s' : locals E) (l : list log_entry) :
  genLine E plot_options minstamp maxstamp timeinc plot section s
  = (Ok plot', s', l) ->
  plot' = plot \/
  exists start data s1 l2,
    draw_line E plot_options (line_options section)
      (default (line_name section) (line_options section !! "data_type"))
      (default "line" (line_options section !! "plot_type"))
      start data plot s1
    = (Ok plot', s', l2).
Proof.
  unfold genLine. intros H.
  apply bind_inv in H as (agg & s1 & l1 & l2 & _ & H & _).
  destruct agg as [agg |]; [| injection H as <- _ _; auto].
  apply bind_inv in H as (vectors & s2 & l3 & l4 & _ & H & _).
  destruct vectors as [[start data] |]; [| injection H as <- _ _; auto].
  right. exists start, data, s2, l4. exact H.
Qed.

Lemma genLines_appends (sections : list LineSection) :
  forall (plot plot' : PlotOf E) (s s' : locals E) (l : list log_entry),
    genLines E plot_options minstamp maxstamp timeinc plot sections s
    = (Ok plot', s', l) ->
    config plot' = config plot /\
    x_scaling plot' = x_scaling plot /\
    decor plot' = decor plot /\
    exists drawn added,
      line_list plot' = (line_list plot ++ added)%list /\
      sublist drawn sections /\
      Forall2 (drawn_for E) drawn added /\
      Forall treated_by_type added.
Proof.
  induction sections as [| section rest IH]; simpl;
    intros plot plot' s s' l H.
  - injection H as <- _ _. do 3 (split; [reflexivity |]).
    exists [], []. rewrite app_nil_r.
    split; [reflexivity | split; [constructor | split; constructor]].
  - apply bind_inv in H as (plot1 & s1 & l1 & l2 & Hline & Hrest & _).
    destruct (IH _ _ _ _ _ Hrest)
      as (Hconfig & Hscaling & Hdecor & drawn & added & Hlines & Hsub
          & Hfor & Htreated).
    apply genLine_inv in Hline as [-> | (start & data & s0 & l0 & Hdraw)].
    + do 3 (split; [assumption |]). exists drawn, added.
      split; [assumption |].
      split; [apply sublist_cons; assumption | split; assumption].
    + apply draw_line_shape in Hdraw
        as (stop & ns & nt & nd & std & c & fc & w & iv & vr & gf & sty
            & _ & _ & _ & _ & _ & Hsp & _ & ->).
      simpl in *. do 3 (split; [assumption |]).
      eexists (section :: drawn), (_ :: added).
      rewrite Hlines, <- app_assoc. simpl.
      split; [reflexivity |].
      split; [apply sublist_skip; assumption |].
      split.
      * constructor; [| exact Hfor]. split; reflexivity.
      * constructor; [| exact Htreated].
        eapply drawn_line_treated_by_type. exact Hsp.
Qed.

(** X15: the lines of a plot are added in the order of their sections and
    at the end. When the loop over the lines returns, the plot holds the
    lines it held before, followed by the new lines; the new lines answer,
    one for one and in the same order, to sections picked from the list of
    sections without changing their order, each line carrying the plot type
    and the label its section gives it. The options of the plot, its x
    scaling and its other settings are those it started with, and no image
    is written or counted meanwhile. *)
Theorem lines_are_appended_in_order
    (sections : list LineSection) (plot plot' : PlotOf E)
    (s s' : locals E) (l : list log_entry) :
  genLines E plot_options minstamp maxstamp timeinc plot sections s
  = (Ok plot', s', l) ->
  config plot' = config plot /\
  x_scaling plot' = x_scaling plot /\
  decor plot' = decor plot /\
  (exists drawn added,
      line_list plot' = (line_list plot ++ added)%list /\
      sublist drawn sections /\
      Forall2 (drawn_for E) drawn added) /\
  ngen E s' = ngen E s /\ written E s' = written E s.
Proof.
  intros H.
  destruct (genLines_appends _ _ _ _ _ _ H)
    as (Hconfig & Hscaling & Hdecor & drawn & added & Hlines & Hsub
        & Hfor & _).
  destruct (adds_images_genLines E _ _ _ _ _ _ _ _ _ _ H)
    as (images & Hw & Hn & Himages).
  destruct images; [| simpl in Himages; lia].
  rewrite app_nil_r in Hw. simpl in Hn.
  do 3 (split; [assumption |]).
  split; [exists drawn, added; repeat split; assumption |].
  split; [lia | exact Hw].
Qed.

(** X16: on every line the loop draws, the fields special to a plot type
    are set for that type only: [bar_width] exactly on lines of type
    [bar], and with no more entries than the line has points;
    [gap_fraction] on lines of type [line] only, and strictly between 0
    and 1; [vector_rotate] on lines of type [vector] only. *)
Theorem drawn_lines_are_treated_by_type
    (sections : list LineSection) (plot plot' : PlotOf E)
    (s s' : locals E) (l : list log_entry) :
  genLines E plot_options minstamp maxstamp timeinc plot sections s
  = (Ok plot', s', l) ->
  Forall treated_by_type (line_list plot) ->
  Forall treated_by_type (line_list plot').
Proof.
  intros H Hbefore.
  destruct (genLines_appends _ _ _ _ _ _ H)
    as (_ & _ & _ & drawn & added & -> & _ & _ & Hadded).
  apply Forall_app. split; assumption.
Qed.

End LinesOfAPlot.

Lemma lines_are_appended_in_order_witness :
  let E := Station.station false in
  let sections :=
    [Station.outTemp_no_interval; Station.outTemp_bar; Station.wind_vector] in
  let plot' := Station.bar_and_vector_plot in
  let s' := mkLocals E (Some (Station.seconds [7200; 10800])) 0 [] in
  config plot' = config Station.empty_plot /\
  x_scaling plot' = x_scaling Station.empty_plot /\
  decor plot' = decor Station.empty_plot /\
  (exists drawn added,
      line_list plot' = (line_list Station.empty_plot ++ added)%list /\
      sublist drawn sections /\
      Forall2 (drawn_for E) drawn added) /\
  ngen E s' = ngen E Station.nothing /\
  written E s' = written E Station.nothing.
Proof.
  cbv zeta.
  apply (lines_are_appended_in_order (Station.station false)
           Station.day_options 86400 172800 10800
           [Station.outTemp_no_interval; Station.outTemp_bar;
            Station.wind_vector]
           Station.empty_plot Station.bar_and_vector_plot Station.nothing
           (mkLocals _ (Some (Station.seconds [7200; 10800])) 0 [])
           [(LOG_ERR, AggregateIntervalRequired "avg");
            (LOG_ERR, LineTypeSkipped "outTemp")]).
  reflexivity.
Defined.

Lemma drawn_lines_are_treated_by_type_witness :
  Forall treated_by_type (line_list Station.bar_plot).
Proof.
  apply (drawn_lines_are_treated_by_type (Station.station false)
           Station.day_options 86400 172800 10800
           [Station.outTemp_no_interval; Station.outTemp_bar]
           Station.empty_plot Station.bar_plot Station.nothing
           (mkLocals _ (Some (Station.seconds [7200; 10800])) 0 [])
           [(LOG_ERR, AggregateIntervalRequired "avg");
            (LOG_ERR, LineTypeSkipped "outTemp")]).
  - reflexivity.
  - constructor.
Defined.

(** ** Labels *)

Section Labels.

Variable E : Collaborators.

(** X17: the standard unit label is looked up before the [y_label] option
    is consulted, as the default argument of [get]. When that lookup
    raises, the line raises with it, whatever its options are, a
    [y_label] of their own included. *)
Theorem label_lookup_precedes_y_label
    (plot_options line_options : gmap string string)
    (var_type plot_type : string)
    (start_vec_t data_vec_t stop new_start new_stop new_data : ValueTuple)
    (plot : PlotOf E) (e : exn) (s : locals E) :
  stop_vec_t E s = Some stop ->
  convert E start_vec_t = Ok new_start ->
  convert E stop = Ok new_stop ->
  convert E data_vec_t = Ok new_data ->
  get_label_string E var_type = Raise e ->
  draw_line E plot_options line_options var_type plot_type
            start_vec_t data_vec_t plot s
  = (Raise e, s, []).
Proof.
  intros Hstop Hstart Hconv Hdata Hlabel.
  unfold draw_line. rewrite bind_run.
  assert (conversions E start_vec_t data_vec_t s
          = (Ok (new_start, new_stop, new_data), s, [])) as ->.
  { unfold conversions. rewrite bind_run, Hstart. simpl.
    rewrite bind_run. unfold read_stop_vec_t. rewrite Hstop.
    rewrite bind_run, Hconv. simpl. rewrite bind_run, Hdata. reflexivity. }
  rewrite bind_run, Hlabel. reflexivity.
Qed.

(** X18: the label of a drawn line is the option [label] when it is given
    and not empty; otherwise the entry of the title dictionary for the
    type of the line; otherwise that type itself. The unit label the plot
    keeps is the option [y_label], or else the standard label of the type,
    stripped of the blanks around it. *)
Theorem drawn_line_labels
    (plot_options line_options : gmap string string)
    (var_type plot_type : string) (start_vec_t data_vec_t : ValueTuple)
    (plot plot' : PlotOf E) (s s' : locals E) (l : list log_entry) :
  draw_line E plot_options line_options var_type plot_type
            start_vec_t data_vec_t plot s = (Ok plot', s', l) ->
  exists standard_label line,
    get_label_string E var_type = Ok standard_label /\
    unit_label plot'
    = Some (strip (default standard_label (line_options !! "y_label"))) /\
    line_list plot' = (line_list plot ++ [line])%list /\
    (forall given, line_options !! "label" = Some given -> given <> "" ->
                   label line = given) /\
    (line_options !! "label" = None \/ line_options !! "label" = Some "" ->
     (forall title, title_dict E !! var_type = Some title ->
                    label line = title) /\
     (title_dict E !! var_type = None -> label line = var_type)).
Proof.
  intros Hdraw.
  apply draw_line_shape in Hdraw
    as (stop & ns & nt & nd & std & c & fc & w & iv & vr & gf & sty
        & _ & _ & _ & _ & Hstd & _ & _ & ->).
  eexists std, _. simpl.
  split; [exact Hstd |]. split; [reflexivity |]. split; [reflexivity |].
  unfold line_label. simpl. split.
  - intros given -> Hgiven. apply String.eqb_neq in Hgiven.
    rewrite Hgiven. reflexivity.
  - intros [-> | ->]; simpl; split;
      try (intros title ->; reflexivity); intros ->; reflexivity.
Qed.

(** X19: a line is drawn at the stop times of its samples: the x vector of
    the new line holds the values of the converted [stop_vec_t], the y
    vector those of the converted data vector, whatever their lengths; the
    start vector decides the bar widths only. *)
Theorem line_is_drawn_at_stop_times
    (plot_options line_options : gmap string string)
    (var_type plot_type : string) (start_vec_t data_vec_t : ValueTuple)
    (plot plot' : PlotOf E) (s s' : locals E) (l : list log_entry) :
  draw_line E plot_options line_options var_type plot_type
            start_vec_t data_vec_t plot s = (Ok plot', s', l) ->
  exists stop new_stop new_data line,
    stop_vec_t E s = Some stop /\
    convert E stop = Ok new_stop /\
    convert E data_vec_t = Ok new_data /\
    line_list plot' = (line_list plot ++ [line])%list /\
    x line = value new_stop /\
    y line = value new_data /\
    stop_vec_t E s' = Some stop.
Proof.
  intros Hdraw.
  apply draw_line_shape in Hdraw
    as (stop & ns & nt & nd & std & c & fc & w & iv & vr & gf & sty
        & Hstop & _ & Hnt & Hnd & _ & _ & -> & ->).
  eexists stop, nt, nd, _. simpl. repeat split; assumption || reflexivity.
Qed.

End Labels.

Lemma label_lookup_precedes_y_label_witness :
  let E :=
    Station.outfit (fun _ => Raise (ForeignError "units")) (fun _ => Ok tt)
                   None in
  let s := mkLocals E (Some (Station.seconds [7200; 10800])) 0 [] in
  line_options Station.wind_vector !! "y_label" = Some "  knots " /\
  draw_line E Station.day_options (line_options Station.wind_vector)
            "outTemp" "vector" (Station.seconds [3600; 7200])
            (Station.degrees [20; 21]%Q) Station.empty_plot s
  = (Raise (ForeignError "units"), s, []).
Proof.
  cbv zeta. split; [reflexivity |].
  apply (label_lookup_precedes_y_label
           (Station.outfit (fun _ => Raise (ForeignError "units"))
                           (fun _ => Ok tt) None)
           Station.day_options (line_options Station.wind_vector)
           "outTemp" "vector" (Station.seconds [3600; 7200])
           (Station.degrees [20; 21]%Q) (Station.seconds [7200; 10800])
           (Station.seconds [3600; 7200]) (Station.seconds [7200; 10800])
           (Station.degrees [20; 21]%Q));
    reflexivity.
Defined.

Lemma drawn_line_labels_witness :
  let E := Station.station false in
  exists standard_label line,
    get_label_string E "outTemp" = Ok standard_label /\
    unit_label Station.vector_plot
    = Some (strip (default standard_label
                           (line_options Station.wind_vector !! "y_label"))) /\
    line_list Station.vector_plot
    = (line_list Station.empty_plot ++ [line])%list /\
    (forall given,
        line_options Station.wind_vector !! "label" = Some given ->
        given <> "" -> label line = given) /\
    (line_options Station.wind_vector !! "label" = None \/
     line_options Station.wind_vector !! "label" = Some "" ->
     (forall title, title_dict E !! "outTemp" = Some title ->
                    label line = title) /\
     (title_dict E !! "outTemp" = None -> label line = "outTemp")).
Proof.
  cbv zeta.
  apply (drawn_line_labels (Station.station false) Station.day_options
           (line_options Station.wind_vector) "outTemp" "vector"
           (Station.seconds [3600; 7200]) (Station.degrees [20; 21]%Q)
           Station.empty_plot Station.vector_plot
           (mkLocals _ (Some (Station.seconds [7200; 10800])) 0 [])
           (mkLocals _ (Some (Station.seconds [7200; 10800])) 0 []) []).
  reflexivity.
Defined.

Lemma line_is_drawn_at_stop_times_witness :
  let E := Station.station false in
  let s := mkLocals E (Some (Station.seconds [7200; 10800])) 0 [] in
  exists stop new_stop new_data line,
    stop_vec_t E s = Some stop /\
    convert E stop = Ok new_stop /\
    convert E (Station.degrees [20; 21]%Q) = Ok new_data /\
    line_list Station.vector_plot
    = (line_list Station.empty_plot ++ [line])%list /\
    x line = value new_stop /\
    y line = value new_data /\
    stop_vec_t E s = Some stop.
Proof.
  cbv zeta.
  apply (line_is_drawn_at_stop_times (Station.station false)
           Station.day_options (line_options Station.wind_vector)
           "outTemp" "vector" (Station.seconds [3600; 7200])
           (Station.degrees [20; 21]%Q) Station.empty_plot
           Station.vector_plot
           (mkLocals _ (Some (Station.seconds [7200; 10800])) 0 [])
           (mkLocals _ (Some (Station.seconds [7200; 10800])) 0 []) []).
  reflexivity.
Defined.

(** ** The last line, and the first *)

Section LastAndFirst.

Variable E : Collaborators.
Variable plot_options : gmap string string.
Variables minstamp maxstamp timeinc : Z.

(** A line that is complete and returns was drawn. *)
Lemma genLine_drawn (plot plot' : PlotOf E) (section : LineSection)
    (agg : option (string * Z)) (s s' : locals E) (l : list log_entry) :
  let line_options := line_options section in
  let var_type := default (line_name section) (line_options !! "data_type") in
  aggregates_as E line_options agg ->
  var_type <> "function" \/
  (is_Some (line_options !! "function_type") /\
   is_Some (line_options !! "function_definition")) ->
  genLine E plot_options minstamp maxstamp timeinc plot section s
  = (Ok plot', s', l) ->
  exists start data s1 l2,
    draw_line E plot_options line_options var_type
      (default "line" (line_options !! "plot_type")) start data plot s1
    = (Ok plot', s', l2).
Proof.
  intros line_options var_type Hagg Hcomplete. unfold genLine.
  fold line_options var_type.
  rewrite bind_run, (aggregation_settled _ _ _ _ _ Hagg). simpl.
  intros H. rewrite let_run in H.
  apply bind_inv in H as (vectors & s2 & l3 & l4 & Hvec & H & _).
  destruct vectors as [[start data] |]; [eauto |].
  exfalso. unfold line_vectors in Hvec.
  apply bind_inv in Hvec as (fetched & s3 & l5 & l6 & Hfetch & Hvec & _).
  destruct fetched as [[start data] |].
  - apply bind_inv in Hvec as (? & s4 & ? & ? & _ & Hvec & _).
    apply bind_inv in Hvec as (? & s5 & ? & ? & _ & Hvec & _).
    discriminate Hvec.
  - unfold fetch_vectors in Hfetch.
    destruct (String.eqb_spec var_type "function") as [Hfun | Hfun].
    + destruct Hcomplete as [Hvar | [[ft Hft] [fd Hfd]]]; [contradiction |].
      rewrite Hft, Hfd in Hfetch.
      destruct (generatePoints E ft fd minstamp maxstamp (timeinc / 50))
        as [[[? ?] ?] ?].
      apply bind_inv in Hfetch as (? & ? & ? & ? & _ & Hfetch & _).
      discriminate Hfetch.
    + apply bind_inv in Hfetch as (? & ? & ? & ? & _ & Hfetch & _).
      apply bind_inv in Hfetch as ([[? ?] ?] & ? & ? & ? & _ & Hfetch & _).
      apply bind_inv in Hfetch as (? & ? & ? & ? & _ & Hfetch & _).
      discriminate Hfetch.
Qed.

(** X20: the unit label of a plot is that of the last line drawn; the
    labels of the lines before it are overwritten. *)
Theorem unit_label_is_that_of_the_last_line
    (before : list LineSection) (last : LineSection)
    (agg : option (string * Z)) (plot plot' : PlotOf E)
    (s s' : locals E) (l : list log_entry) :
  let line_options := line_options last in
  let var_type := default (line_name last) (line_options !! "data_type") in
  aggregates_as E line_options agg ->
  var_type <> "function" \/
  (is_Some (line_options !! "function_type") /\
   is_Some (line_options !! "function_definition")) ->
  genLines E plot_options minstamp maxstamp timeinc plot (before ++ [last]) s
  = (Ok plot', s', l) ->
  exists standard_label,
    get_label_string E var_type = Ok standard_label /\
    unit_label plot'
    = Some (strip (default standard_label (line_options !! "y_label"))).
Proof.
  intros line_options var_type Hagg Hcomplete. revert plot s l.
  induction before as [| first before IH]; simpl; intros plot s l H.
  - apply bind_inv in H as (plot1 & s1 & l1 & l2 & Hline & H & _).
    injection H as <- _ _.
    apply (genLine_drawn _ _ _ agg) in Hline
      as (start & data & s0 & l0 & Hdraw); [| assumption | assumption].
    apply drawn_line_labels in Hdraw
      as (std & line & Hstd & Hunit & _).
    exists std. split; assumption.
  - apply bind_inv in H as (plot1 & s1 & l1 & l2 & _ & H & _).
    apply (IH _ _ _ H).
Qed.

(** The function branch binds [end_vec_t] and leaves [stop_vec_t] as it
    is; the first reader of [stop_vec_t] finds it unbound. *)
Lemma genLine_function_unbound
    (plot : PlotOf E) (section : LineSection) (agg : option (string * Z))
    (func_type func_def : string) (s : locals E) :
  let line_options := line_options section in
  default (line_name section) (line_options !! "data_type") = "function" ->
  aggregates_as E line_options agg ->
  line_options !! "function_type" = Some func_type ->
  line_options !! "function_definition" = Some func_def ->
  stop_vec_t E s = None ->
  let generated :=
    generatePoints E func_type func_def minstamp maxstamp (timeinc / 50) in
  exists e,
    genLine E plot_options minstamp maxstamp timeinc plot section s
    = (Raise e, s, snd generated) /\
    (e = UnboundLocalError "stop_vec_t" \/
     convert E (fst (fst (fst generated))) = Raise e).
Proof.
  intros line_options Hvar Hagg Hft Hfd Hstop generated.
  unfold genLine. fold line_options. rewrite Hvar.
  rewrite bind_run, (aggregation_settled _ _ _ _ _ Hagg). simpl.
  rewrite let_run, bind_run. unfold line_vectors. rewrite bind_run.
  unfold fetch_vectors. simpl. rewrite Hft, Hfd. fold generated.
  destruct generated as [[[start_vec_t end_vec_t] data_vec_t] logged].
  simpl. rewrite !app_nil_r.
  unfold debug_assertion. destruct (debug E).
  - exists (UnboundLocalError "stop_vec_t").
    rewrite !bind_run. unfold read_stop_vec_t. rewrite Hstop. simpl.
    rewrite !app_nil_r. auto.
  - rewrite bind_run. simpl. unfold align.
    destruct agg as [[a ai] |];
      [destruct (wants_midpoint (Some (a, ai))
                   (default "line" (line_options !! "plot_type"))) |].
    + exists (UnboundLocalError "stop_vec_t").
      rewrite !bind_run. unfold read_stop_vec_t. rewrite Hstop. simpl.
      rewrite !app_nil_r. auto.
    + rewrite bind_run. simpl. unfold draw_line, conversions.
      rewrite !bind_run.
      destruct (convert E start_vec_t) as [new_start | e] eqn:Hconv; simpl.
      * exists (UnboundLocalError "stop_vec_t").
        rewrite bind_run. unfold read_stop_vec_t. rewrite Hstop. simpl.
        rewrite !app_nil_r. auto.
      * exists e. rewrite !app_nil_r. auto.
    + rewrite bind_run. simpl. unfold draw_line, conversions.
      rewrite !bind_run.
      destruct (convert E start_vec_t) as [new_start | e] eqn:Hconv; simpl.
      * exists (UnboundLocalError "stop_vec_t").
        rewrite bind_run. unfold read_stop_vec_t. rewrite Hstop. simpl.
        rewrite !app_nil_r. auto.
      * exists e. rewrite !app_nil_r. auto.
Qed.

(** X21: a line of type [function] with both its options never binds
    [stop_vec_t]. Processed while that local is unbound, that is before any
    line of the pass was read from the archive, it draws nothing and
    raises: [UnboundLocalError], unless the converter refuses the generated
    start vector first. *)
Theorem function_line_needs_a_bound_stop_vector
    (plot : PlotOf E) (section : LineSection) (agg : option (string * Z))
    (func_type func_def : string) (s : locals E) :
  let line_options := line_options section in
  default (line_name section) (line_options !! "data_type") = "function" ->
  aggregates_as E line_options agg ->
  line_options !! "function_type" = Some func_type ->
  line_options !! "function_definition" = Some func_def ->
  stop_vec_t E s = None ->
  let generated :=
    generatePoints E func_type func_def minstamp maxstamp (timeinc / 50) in
  exists e,
    genLine E plot_options minstamp maxstamp timeinc plot section s
    = (Raise e, s, snd generated) /\
    (e = UnboundLocalError "stop_vec_t" \/
     convert E (fst (fst (fst generated))) = Raise e).
Proof. apply genLine_function_unbound. Qed.

End LastAndFirst.

(** ** A function line that cannot be evaluated *)

(** C5, where the code departs from it. When the expression fails for a
    sample of the range, [generatePoints] does return the three vectors of
    one zero sample and logs the failure. But the line that called it has
    the stop vector in [end_vec_t], and goes on to read [stop_vec_t]: while
    no line of the pass has been read from the archive that local is
    unbound, the line raises, the loop over the lines ends there, and the
    plot is neither rendered nor saved. *)
Theorem failed_function_line_aborts_the_plot
    (E : Collaborators) (plot_options : gmap string string) (plotgen_ts : Z)
    (img_file : string) (section : LineSection) (rest : list LineSection)
    (scaling : Z * Z * Z) (deco : decoration E) (agg : option (string * Z))
    (func_type func_def : string) (x : Z) (e : exn) (s : locals E) :
  let line_options := line_options section in
  let minstamp := fst (fst scaling) in
  let maxstamp := snd (fst scaling) in
  let timeinc := snd scaling in
  let time_unit := getStandardUnitType E None "dateTime" None in
  let data_unit := getStandardUnitType E None func_type None in
  TimePlot_init E plot_options = Ok tt ->
  time_scaling E plot_options plotgen_ts s = (Ok scaling, s, []) ->
  plot_decoration E plot_options plotgen_ts = Ok deco ->
  default (line_name section) (line_options !! "data_type") = "function" ->
  aggregates_as E line_options agg ->
  line_options !! "function_type" = Some func_type ->
  line_options !! "function_definition" = Some func_def ->
  In x (range_list minstamp maxstamp (timeinc / 50)) ->
  (forall vecs,
      eval_float E (replace_x func_def (format_d x)) vecs = Raise e) ->
  stop_vec_t E s = None ->
  generatePoints E func_type func_def minstamp maxstamp (timeinc / 50)
  = ((zero_sample time_unit, zero_sample time_unit, zero_sample data_unit),
     [(LOG_ERR, EvalFailed func_def)]) /\
  exists e',
    (e' = UnboundLocalError "stop_vec_t" \/
     convert E (zero_sample time_unit) = Raise e') /\
    genLines E plot_options minstamp maxstamp timeinc
             (mkTimePlot plot_options scaling deco None []) (section :: rest) s
    = (Raise e', s, [(LOG_ERR, EvalFailed func_def)]) /\
    draw_plot E plot_options plotgen_ts img_file (section :: rest) s
    = (Raise e', s, [(LOG_ERR, EvalFailed func_def)]).
Proof.
  intros line_options minstamp maxstamp timeinc time_unit data_unit
         Hinit Hscale Hdeco Hvar Hagg Hft Hfd Hin Hfail Hstop.
  destruct (generatePoints_degrades_to_zero E func_type func_def
              minstamp maxstamp (timeinc / 50) x e Hin Hfail) as [Hgen _].
  fold time_unit data_unit in Hgen.
  split; [exact Hgen |].
  destruct (genLine_function_unbound E plot_options minstamp maxstamp timeinc
              (mkTimePlot plot_options scaling deco None []) section agg
              func_type func_def s Hvar Hagg Hft Hfd Hstop)
    as (e' & Hline & Hwhich).
  rewrite Hgen in Hline, Hwhich. simpl in Hline, Hwhich.
  assert (genLines E plot_options minstamp maxstamp timeinc
                   (mkTimePlot plot_options scaling deco None [])
                   (section :: rest) s
          = (Raise e', s, [(LOG_ERR, EvalFailed func_def)])) as Hlines
    by (simpl; apply bind_raise; exact Hline).
  exists e'. split; [exact Hwhich |]. split; [exact Hlines |].
  unfold draw_plot. rewrite bind_run, Hinit. simpl.
  rewrite bind_run, Hscale.
  subst minstamp maxstamp timeinc.
  destruct scaling as [[minstamp maxstamp] timeinc]. simpl in Hlines. simpl.
  rewrite bind_run, Hdeco. simpl. rewrite bind_run, Hlines. reflexivity.
Qed.

Lemma failed_function_line_aborts_the_plot_witness :
  let E := Station.station false in
  let unbound := UnboundLocalError "stop_vec_t" in
  generatePoints E "outTemp" "1/0" 86400 172800 (10800 / 50)
  = ((zero_sample (None, None), zero_sample (None, None),
      zero_sample (None, None)),
     [(LOG_ERR, EvalFailed "1/0")]) /\
  draw_plot E Station.day_options 172800
            "/home/weewx/public_html/dayramp.png"
            [Station.ramp_broken; Station.outTemp_gap] Station.nothing
  = (Raise unbound, Station.nothing, [(LOG_ERR, EvalFailed "1/0")]) /\
  genImages E (Some 172800) Station.broken_pass
  = (Raise unbound, Station.nothing, [(LOG_ERR, EvalFailed "1/0")]).
Proof.
  cbv zeta.
  destruct (failed_function_line_aborts_the_plot (Station.station false)
              Station.day_options 172800
              "/home/weewx/public_html/dayramp.png"
              Station.ramp_broken [Station.outTemp_gap]
              (86400, 172800, 10800) tt None "outTemp" "1/0" 86400
              ZeroDivisionError Station.nothing)
    as (Hgen & e' & Hwhich & _ & Hplot);
    try reflexivity.
  - vm_compute. left. reflexivity.
  - split; [exact Hgen |]. split; [| reflexivity].
    destruct Hwhich as [-> | Hconvert]; [exact Hplot | discriminate Hconvert].
Defined.

Lemma unit_label_is_that_of_the_last_line_witness :
  let E := Station.station false in
  exists standard_label,
    get_label_string E "outTemp" = Ok standard_label /\
    unit_label Station.vector_plot
    = Some (strip (default standard_label
                           (line_options Station.wind_vector !! "y_label"))).
Proof.
  cbv zeta.
  apply (unit_label_is_that_of_the_last_line (Station.station false)
           Station.day_options 86400 172800 10800
           [Station.outTemp_no_interval] Station.wind_vector None
           Station.empty_plot Station.vector_plot Station.nothing
           (mkLocals _ (Some (Station.seconds [7200; 10800])) 0 [])
           [(LOG_ERR, AggregateIntervalRequired "avg");
            (LOG_ERR, LineTypeSkipped "outTemp")]).
  - reflexivity.
  - left. simpl. discriminate.
  - reflexivity.
Defined.

Lemma function_line_needs_a_bound_stop_vector_witness :
  let E := Station.station false in
  let generated := generatePoints E "outTemp" "x" 86400 172800 (10800 / 50) in
  exists e,
    genLine E Station.day_options 86400 172800 10800 Station.empty_plot
            Station.ramp_avg Station.nothing
    = (Raise e, Station.nothing, snd generated) /\
    (e = UnboundLocalError "stop_vec_t" \/
     convert E (fst (fst (fst generated))) = Raise e).
Proof.
  cbv zeta.
  apply (function_line_needs_a_bound_stop_vector (Station.station false)
           Station.day_options 86400 172800 10800 Station.empty_plot
           Station.ramp_avg (Some ("avg", 3600)) "outTemp" "x"
           Station.nothing).
  - reflexivity.
  - simpl. repeat split. exists "3600". split; reflexivity.
  - reflexivity.
  - reflexivity.
  - reflexivity.
Defined.

(** ** A plot that is saved *)

(** X22: a plot whose lines return, which renders and which is saved, is
    counted once, and its image is recorded under its path after the
    images written before; what the lines logged and left in [stop_vec_t]
    stays. This holds for a plot without lines, or with every line
    skipped, as for any other: its empty image is saved and counted. *)
Theorem saved_plot_is_counted_once
    (E : Collaborators) (plot_options : gmap string string) (plotgen_ts : Z)
    (img_file : string) (sections : list LineSection) (scaling : Z * Z * Z)
    (deco : decoration E) (plot : PlotOf E) (img : image E)
    (s s1 : locals E) (l1 : list log_entry) :
  TimePlot_init E plot_options = Ok tt ->
  time_scaling E plot_options plotgen_ts s = (Ok scaling, s, []) ->
  plot_decoration E plot_options plotgen_ts = Ok deco ->
  genLines E plot_options (fst (fst scaling)) (snd (fst scaling)) (snd scaling)
           (mkTimePlot plot_options scaling deco None []) sections s
  = (Ok plot, s1, l1) ->
  render E plot = Ok img ->
  save E img img_file = Ok tt ->
  draw_plot E plot_options plotgen_ts img_file sections s
  = (Ok tt,
     mkLocals E (stop_vec_t E s1) (S (ngen E s))
              (written E s ++ [(img_file, img)])%list,
     l1) /\
  (sections = [] -> plot = mkTimePlot plot_options scaling deco None []).
Proof.
  intros Hinit Hscale Hdeco Hlines Hrender Hsave.
  split.
  - destruct (adds_images_genLines E _ _ _ _ _ _ _ _ _ _ Hlines)
      as (added & Hw & Hn & Hlen).
    destruct added; [| simpl in Hlen; lia].
    rewrite app_nil_r in Hw. simpl in Hn.
    unfold draw_plot. rewrite bind_run, Hinit. simpl.
    rewrite bind_run, Hscale. destruct scaling as [[minstamp maxstamp] timeinc].
    simpl in Hlines. simpl. rewrite bind_run, Hdeco. simpl.
    rewrite bind_run, Hlines. unfold render_and_save.
    rewrite bind_run, Hrender. simpl. rewrite Hsave. unfold count_image.
    rewrite Hw, Hn, Nat.add_0_r, app_nil_r. reflexivity.
  - intros ->. simpl in Hlines. injection Hlines as <- _ _. reflexivity.
Qed.

Lemma saved_plot_is_counted_once_witness :
  let E := Station.station false in
  let img_file := "/home/weewx/public_html/dayinside.png" in
  draw_plot E Station.day_options 172800 img_file
            [Station.outTemp_no_interval] Station.nothing
  = (Ok tt,
     mkLocals E None 1 [(img_file, Station.empty_plot)],
     [(LOG_ERR, AggregateIntervalRequired "avg");
      (LOG_ERR, LineTypeSkipped "outTemp")]).
Proof.
  cbv zeta.
  apply (saved_plot_is_counted_once (Station.station false)
           Station.day_options 172800 "/home/weewx/public_html/dayinside.png"
           [Station.outTemp_no_interval] (86400, 172800, 10800) tt
           Station.empty_plot Station.empty_plot Station.nothing
           Station.nothing
           [(LOG_ERR, AggregateIntervalRequired "avg");
            (LOG_ERR, LineTypeSkipped "outTemp")]);
    reflexivity.
Defined.

(** ** What a pass does to its locals *)

Section Respects.

Variable E : Collaborators.
Variable R : locals E -> locals E -> Prop.

Hypothesis R_refl : forall s, R s s.
Hypothesis R_trans : forall s1 s2 s3, R s1 s2 -> R s2 s3 -> R s1 s3.
Hypothesis R_assign :
  forall s v, R s (mkLocals E (Some v) (ngen E s) (written E s)).
Hypothesis R_count :
  forall s img_file img,
    R s (mkLocals E (stop_vec_t E s) (S (ngen E s))
                  (written E s ++ [(img_file, img)])%list).

Lemma respects_same {A} (m : M E A) :
  (forall s r s' l, m s = (r, s', l) -> s' = s) -> respects R m.
Proof. intros Hm s r s' l Hrun. rewrite (Hm s r s' l Hrun). apply R_refl. Qed.

Lemma respects_ret {A} (a : A) : respects R (mret a : M E A).
Proof. apply respects_same. intros s r s' l [= _ <- _]. reflexivity. Qed.

Lemma respects_raise {A} (e : exn) : respects R (raise E e : M E A).
Proof. apply respects_same. intros s r s' l [= _ <- _]. reflexivity. Qed.

Lemma respects_lift {A} (r : result A) : respects R (lift E r).
Proof. destruct r; [apply (respects_ret a) | apply respects_raise]. Qed.

Lemma respects_syslog (lvl : level) (msg : message) :
  respects R (syslog E lvl msg).
Proof. apply respects_same. intros s r s' l [= _ <- _]. reflexivity. Qed.

Lemma respects_tell (logged : list log_entry) : respects R (tell E logged).
Proof. apply respects_same. intros s r s' l [= _ <- _]. reflexivity. Qed.

Lemma respects_getitem (d : gmap string string) (key : string) :
  respects R (getitem E d key).
Proof.
  unfold getitem. destruct (d !! key);
    [apply (respects_ret s) | apply respects_raise].
Qed.

Lemma respects_read_stop_vec_t : respects R (read_stop_vec_t E).
Proof.
  apply respects_same. intros s r s' l. unfold read_stop_vec_t.
  destruct (stop_vec_t E s); intros [= _ <- _]; reflexivity.
Qed.

Lemma respects_assign_stop_vec_t (v : ValueTuple) :
  respects R (assign_stop_vec_t E v).
Proof. intros s r s' l [= _ <- _]. apply R_assign. Qed.

Lemma respects_count_image (img_file : string) (img : image E) :
  respects R (count_image E img_file img).
Proof. intros s r s' l [= _ <- _]. apply R_count. Qed.

Lemma respects_report_success : respects R (report_success E).
Proof. apply respects_same. intros s r s' l [= _ <- _]. reflexivity. Qed.

Lemma respects_bind {A B} (m : M E A) (f : A -> M E B) :
  respects R m -> (forall a, respects R (f a)) -> respects R (a ← m; f a).
Proof.
  intros Hm Hf s r s' l. rewrite bind_run.
  destruct (m s) as [[[a | e] s1] l1] eqn:Hrun.
  - destruct (f a s1) as [[r2 s2] l2] eqn:Hrun2. intros [= <- <- <-].
    apply (R_trans _ s1); [apply (Hm _ _ _ _ Hrun) | apply (Hf _ _ _ _ _ Hrun2)].
  - intros [= <- <- <-]. apply (Hm _ _ _ _ Hrun).
Qed.

End Respects.

(** Steps through a computation built from the primitives of the monad. *)
Ltac steady :=
  repeat first
    [ apply respects_ret; assumption
    | apply respects_raise; assumption
    | apply respects_lift; assumption
    | apply respects_syslog; assumption
    | apply respects_tell; assumption
    | apply respects_getitem; assumption
    | apply respects_read_stop_vec_t; assumption
    | apply respects_assign_stop_vec_t; assumption
    | apply respects_count_image; assumption
    | apply respects_report_success; assumption
    | match goal with H : _ |- respects _ _ => apply H end
    | apply respects_bind; [assumption | | intros ?]
    | match goal with
      | |- respects _ (match ?x with _ => _ end) => destruct x
      | |- respects _ (if ?b then _ else _) => destruct b
      | |- respects _ (let (_, _) := ?x in _) => destruct x
      end ].

Section RespectedByAPass.

Variable E : Collaborators.
Variable R : locals E -> locals E -> Prop.

Hypothesis R_refl : forall s, R s s.
Hypothesis R_trans : forall s1 s2 s3, R s1 s2 -> R s2 s3 -> R s1 s3.
Hypothesis R_assign :
  forall s v, R s (mkLocals E (Some v) (ngen E s) (written E s)).
Hypothesis R_count :
  forall s img_file img,
    R s (mkLocals E (stop_vec_t E s) (S (ngen E s))
                  (written E s ++ [(img_file, img)])%list).

Lemma respects_genLine (plot_options : gmap string string)
    (minstamp maxstamp timeinc : Z) (plot : PlotOf E) (section : LineSection) :
  respects R (genLine E plot_options minstamp maxstamp timeinc plot section).
Proof.
  unfold genLine, aggregation, line_vectors, fetch_vectors, debug_assertion,
    align, draw_line, conversions, optional_color, special_treatments.
  steady.
Qed.

Lemma respects_genLines (plot_options : gmap string string)
    (minstamp maxstamp timeinc : Z) (sections : list LineSection) :
  forall plot : PlotOf E,
    respects R
      (genLines E plot_options minstamp maxstamp timeinc plot sections).
Proof.
  induction sections as [| section rest IH]; intros plot; simpl.
  - steady.
  - apply respects_bind; [assumption | apply respects_genLine | exact IH].
Qed.

Lemma respects_genPlot (gen_ts : option Z) (section : PlotSection) :
  respects R (genPlot E gen_ts section).
Proof.
  pose proof respects_genLines as Hlines.
  unfold genPlot, plot_timestamp, fresh_image, draw_plot, time_scaling,
    render_and_save.
  steady.
Qed.

Lemma respects_genPlots (gen_ts : option Z) (plots : list PlotSection) :
  respects R (genPlots E gen_ts plots).
Proof.
  induction plots as [| p plots IH]; simpl; [steady |].
  apply respects_bind;
    [assumption | apply respects_genPlot | intros _; exact IH].
Qed.

Lemma respects_genSpans (gen_ts : option Z)
    (spans : list (list PlotSection)) :
  respects R (genSpans E gen_ts spans).
Proof.
  induction spans as [| plots spans IH]; simpl; [steady |].
  apply respects_bind;
    [assumption | apply respects_genPlots | intros _; exact IH].
Qed.

End RespectedByAPass.

(** X23: once [stop_vec_t] is bound it stays bound: no line, plot or time
    span that follows leaves it unbound again, whether it returns or
    raises. A function line can therefore miss it only before the first
    line of the pass is read from the archive. *)
Theorem stop_vec_t_stays_bound
    (E : Collaborators) (gen_ts : option Z) (spans : list (list PlotSection))
    (s s' : locals E) (r : result unit) (l : list log_entry) :
  genSpans E gen_ts spans s = (r, s', l) ->
  is_Some (stop_vec_t E s) ->
  is_Some (stop_vec_t E s').
Proof.
  intros Hrun.
  apply (respects_genSpans E stays_bound) in Hrun; [exact Hrun | | | |];
    unfold stays_bound; simpl; eauto.
Qed.

Lemma stop_vec_t_stays_bound_witness :
  let E := Station.station false in
  is_Some (stop_vec_t E (mkLocals E (Some (Station.seconds [7200])) 1
             [("/home/weewx/public_html/dayinside.png",
               Station.inside_plot)])).
Proof.
  cbv zeta.
  apply (stop_vec_t_stays_bound (Station.station false) (Some 172800)
           Station.inside_pass
           (mkLocals _ (Some (Station.seconds [1])) 0 [])
           _ (Ok tt) []).
  - reflexivity.
  - simpl. eauto.
Defined.

Lemma genImages_counts_what_it_writes_witness :
  let run := genImages (Station.station false) (Some 172800)
                       Station.inside_pass in
  let s := snd (fst run) in
  ngen (Station.station false) s
  = length (written (Station.station false) s) /\
  (length (written (Station.station false) s)
   <= length (concat Station.inside_pass))%nat /\
  (fst (fst run) = Ok tt -> log_success (Station.station false) = true ->
   exists before,
     snd run
     = (before
        ++ [(LOG_INFO,
             Generated (length (written (Station.station false) s)))])%list).
Proof.
  apply (genImages_counts_what_it_writes (Station.station false)
           (Some 172800) Station.inside_pass).
Defined.
